(** * Precision liming: the prescription engine of [calculators/liming.py]
      and the bicarbonate factor of [utils/rainfall_lookup.py]

    Shallow embedding of the two lime calculators ([VDLUFACalculator],
    [CECCalculator]), of the per-sample orchestration
    ([LimingPrescription._calculate_vdlufa_prescription] and
    [LimingPrescription._calculate_cec_prescription]) and of
    [get_bicarbonate_factor].

    Conventions of the embedding.
    - A Python [float] is an exact rational ([Q]); rounding, infinities and
      NaN of IEEE arithmetic are not modelled.  The power law of the
      bicarbonate factor has an irrational exponent and is modelled over the
      real numbers ([R]).
    - A Python [str] is a [string] (a byte string); [str.upper] and
      [str.lower] act on the ASCII letters.
    - [None] is [option]'s [None]; a [dict] literal is an association list.
    - A function that logs or may raise runs in the monad [M]: it yields the
      log records emitted so far and either a value or the exception (the
      text of a record is the f-string of the source, its arrows written
      [->]; what [print] writes to the standard output is left out).
      Division by a denominator that is not a literal goes through [fdiv],
      which raises [ZeroDivisionError] as Python's float division does. *)

From Stdlib Require Import Reals Rpower Ranalysis1 Lra.
From Stdlib Require Import ZArith QArith Qminmax Lqa String Ascii List Bool.
Import ListNotations.

Local Open Scope string_scope.
Local Open Scope Q_scope.

(** ** Exceptions, logging, and the monad of the calculators *)

Inductive exn : Set := ZeroDivisionError | TypeError | KeyError.

Inductive result (A : Type) : Type :=
| Ok (a : A)
| Raise (e : exn).
Arguments Ok {A} a.
Arguments Raise {A} e.

Inductive level : Set := INFO | WARNING.

(** A log record: the level and the text of the message (the f-string as it
    is written in the source, placeholders left in place). *)
Definition log_record : Set := (level * string)%type.

Definition M (A : Type) : Type := (list log_record * result A)%type.

Definition ret {A} (a : A) : M A := ([], Ok a).

Definition raise {A} (e : exn) : M A := ([], Raise e).

Definition bind {A B} (m : M A) (f : A -> M B) : M B :=
  match m with
  | (l, Ok a) => let (l', r) := f a in ((l ++ l')%list, r)
  | (l, Raise e) => (l, Raise e)
  end.

Notation "x <- c ;; k" := (bind c (fun x => k))
  (at level 61, c at next level, right associativity).
Notation "c ;;; k" := (bind c (fun _ => k))
  (at level 61, right associativity).

Definition logger_info (msg : string) : M unit := ([(INFO, msg)], Ok tt).
Definition logger_warning (msg : string) : M unit := ([(WARNING, msg)], Ok tt).

(** What a run is observed to do. *)
Definition returns (m : M Q) (v : Q) : Prop :=
  match snd m with Ok d => d == v | Raise _ => False end.

Definition raises {A} (m : M A) (e : exn) : Prop := snd m = Raise e.

Definition warns {A} (m : M A) : Prop :=
  exists msg, In (WARNING, msg) (fst m).

(** ** Float comparisons and division *)

Definition Qltb (x y : Q) : bool := negb (Qle_bool y x).
Definition Qgtb (x y : Q) : bool := Qltb y x.
Definition Qgeb (x y : Q) : bool := Qle_bool y x.

Infix "<?" := Qltb (at level 70, no associativity) : Q_scope.
Infix "<=?" := Qle_bool (at level 70, no associativity) : Q_scope.
Infix ">?" := Qgtb (at level 70, no associativity) : Q_scope.
Infix ">=?" := Qgeb (at level 70, no associativity) : Q_scope.
Infix "=?" := Qeq_bool (at level 70, no associativity) : Q_scope.

(** [x / y] on floats: [ZeroDivisionError] when [y] is zero. *)
Definition fdiv (x y : Q) : M Q :=
  if y =? 0 then raise ZeroDivisionError else ret (x / y).

(** ** Strings and dictionaries *)

Definition upper_ascii (c : ascii) : ascii :=
  let n := nat_of_ascii c in
  if (Nat.leb 97 n && Nat.leb n 122)%bool then ascii_of_nat (n - 32) else c.

Definition lower_ascii (c : ascii) : ascii :=
  let n := nat_of_ascii c in
  if (Nat.leb 65 n && Nat.leb n 90)%bool then ascii_of_nat (n + 32) else c.

Fixpoint upper (s : string) : string :=
  match s with
  | EmptyString => EmptyString
  | String c t => String (upper_ascii c) (upper t)
  end.

Fixpoint lower (s : string) : string :=
  match s with
  | EmptyString => EmptyString
  | String c t => String (lower_ascii c) (lower t)
  end.

(** [needle in hay] for two [str]. *)
Fixpoint contains (needle hay : string) : bool :=
  if String.prefix needle hay then true
  else match hay with
       | EmptyString => false
       | String _ t => contains needle t
       end.

(** [d.get(k)] on a dict literal with [str] keys. *)
Fixpoint dict_get {V : Type} (d : list (string * V)) (k : string) : option V :=
  match d with
  | [] => None
  | (k', v) :: d' => if String.eqb k k' then Some v else dict_get d' k
  end.

(** [d[k]]: [KeyError] when the key is absent. *)
Definition dict_index {V : Type} (d : list (string * V)) (k : string) : M V :=
  match dict_get d k with Some v => ret v | None => raise KeyError end.

(** [t == name] for an optional texture [t] and a literal [name]. *)
Definition texture_is (t : option string) (name : string) : bool :=
  match t with Some s => String.eqb s name | None => false end.

(** Truthiness of an optional [str]: [None] and the empty string are falsy. *)
Definition truthy (t : option string) : bool :=
  match t with Some EmptyString => false | Some _ => true | None => false end.

(** ** The empirical (VDLUFA) calculator *)

Module VDLUFACalculator.

Definition SOIL_TEXTURES : list string :=
  [ "Sand";
    "Schwach Lehm Sand";
    "Stark Lehmiger Sand";
    "Sandiger Schl Lehm";
    "Toniger Lehm b.Ton" ].

Definition LIME_CONVERSION_FACTORS : list (string * Q) :=
  [ ("CaO", 1.0);
    ("CaCO3", 1.785);
    ("Ca(OH)2", 1.321);
    ("Quicklime", 1.0);
    ("Slaked_lime", 1.321);
    ("Agrocarb", 2.381);
    ("Omya_Calciprill", 1.887) ].

Definition TEXTURE_MAPPING : list (string * option string) :=
  [ ("Bog", None);
    ("Clay", Some "Toniger Lehm b.Ton");
    ("Clayey loam", Some "Toniger Lehm b.Ton");
    ("half-bog soil", None);
    ("loamy clay", Some "Toniger Lehm b.Ton");
    ("sand", Some "Sand");
    ("sandy loam", Some "Sandiger Schl Lehm");
    ("silty clay", Some "Toniger Lehm b.Ton");
    ("silty loam", Some "Stark Lehmiger Sand");
    ("slightly clayey loam", Some "Toniger Lehm b.Ton");
    ("slightly loamy sand", Some "Schwach Lehm Sand");
    ("very loamy sand", Some "Stark Lehmiger Sand");
    ("CLAY", Some "Toniger Lehm b.Ton");
    ("SANDY_LOAM", Some "Sandiger Schl Lehm");
    ("SILTY_LOAM", Some "Stark Lehmiger Sand");
    ("SAND", Some "Sand");
    ("Sand", Some "Sand");
    ("Schwach Lehm Sand", Some "Schwach Lehm Sand");
    ("Stark Lehmiger Sand", Some "Stark Lehmiger Sand");
    ("Sandiger Schl Lehm", Some "Sandiger Schl Lehm");
    ("Toniger Lehm b.Ton", Some "Toniger Lehm b.Ton") ].

Definition CROP_TYPES : list string := [ "Standard crops"; "Other crops" ].

(** The keyword fallback of [map_soil_texture], on the lower-cased input. *)
Definition keyword_guess (texture_lower : string) : option string :=
  if contains "sand" texture_lower then
    if contains "loam" texture_lower then Some "Schwach Lehm Sand"
    else Some "Sand"
  else if contains "clay" texture_lower then Some "Toniger Lehm b.Ton"
  else if (contains "loam" texture_lower || contains "lehm" texture_lower)%bool
       then Some "Stark Lehm Sand"
  else if contains "silt" texture_lower then Some "Sandiger Schl Lehm"
  else None.

Definition map_soil_texture (api_texture : option string) : option string :=
  match api_texture with
  | None => None
  | Some api_texture =>
      match dict_get TEXTURE_MAPPING api_texture with
      | Some v => v
      | None =>
          let api_upper := upper api_texture in
          match dict_get TEXTURE_MAPPING api_upper with
          | Some v => v
          | None => keyword_guess (lower api_texture)
          end
      end
  end.

Definition convert_lime_type (cao_equivalent : Q) (target_lime_type : string) : Q :=
  match dict_get LIME_CONVERSION_FACTORS target_lime_type with
  | Some f => cao_equivalent * f
  | None => cao_equivalent
  end.

Definition optimal_ph_values : list (string * list (string * Q)) :=
  [ ("Standard crops",
      [ ("Sand", 5.9);
        ("Schwach Lehm Sand", 6.4);
        ("Stark Lehmiger Sand", 6.8);
        ("Sandiger Schl Lehm", 7.1);
        ("Toniger Lehm b.Ton", 7.3) ]);
    ("Other crops",
      [ ("Sand", 5.1);
        ("Schwach Lehm Sand", 5.5);
        ("Stark Lehmiger Sand", 5.8);
        ("Sandiger Schl Lehm", 6.1);
        ("Toniger Lehm b.Ton", 6.3) ]) ].

Definition _get_optimal_ph (soil_texture : option string) (crop_type : string) : Q :=
  match dict_get optimal_ph_values crop_type with
  | Some by_texture =>
      match soil_texture with
      | Some t => match dict_get by_texture t with Some v => v | None => 6.5 end
      | None => 6.5
      end
  | None => 6.5
  end.

Definition _calculate_standard_crops (current_ph : Q) (soil_texture : option string) : Q :=
  if texture_is soil_texture "Sand" then
    if current_ph <? 4 then 45.0
    else if ((5.3 <? current_ph) && (current_ph <? 5.9))%bool
         then -11.852 * current_ph + 69.93
    else if current_ph >? 5.8 then 0.0
    else -28.945 * current_ph + 160.52
  else if texture_is soil_texture "Schwach Lehm Sand" then
    if current_ph <? 4 then 77.0
    else if ((5.7 <? current_ph) && (current_ph <? 6.4))%bool
         then -16.667 * current_ph + 106.67
    else if current_ph >? 6.3 then 0.0
    else -38.71 * current_ph + 231.47
  else if texture_is soil_texture "Stark Lehmiger Sand" then
    if current_ph <? 4 then 87.0
    else if ((6.0 <? current_ph) && (current_ph <? 6.8))%bool
         then -20.0 * current_ph + 136.0
    else if current_ph >? 6.7 then 0.0
    else -47.912 * current_ph + 302.54
  else if texture_is soil_texture "Sandiger Schl Lehm" then
    if current_ph <? 4 then 117.0
    else if ((6.2 <? current_ph) && (current_ph <? 7.1))%bool
         then -21.25 * current_ph + 150.87
    else if current_ph >? 7.0 then 0.0
    else -58.122 * current_ph + 378.54
  else if texture_is soil_texture "Toniger Lehm b.Ton" then
    if current_ph <? 4 then 160.0
    else if ((6.3 <? current_ph) && (current_ph <? 7.3))%bool
         then -22.222 * current_ph + 162.22
    else if current_ph >? 6.3 then 0.0
    else -76.93 * current_ph + 505.53
  else (* unknown texture: the sand curve without its middle segment *)
    if current_ph <? 4 then 45.0
    else if current_ph >? 5.8 then 0.0
    else -28.945 * current_ph + 160.52.

Definition _calculate_other_crops (current_ph : Q) (soil_texture : option string) : Q :=
  if texture_is soil_texture "Sand" then
    if current_ph <? 3.4 then 50.0
    else if ((4.6 <? current_ph) && (current_ph <? 5.2))%bool
         then -8.0 * current_ph + 41.6
    else if current_ph >? 5.1 then 0.0
    else -37.692 * current_ph + 178.46
  else if texture_is soil_texture "Schwach Lehm Sand" then
    if current_ph <? 3.3 then 83.0
    else if ((4.9 <? current_ph) && (current_ph <? 5.6))%bool
         then -13.333 * current_ph + 74.667
    else if current_ph >? 5.5 then 0.0
    else -46.348 * current_ph + 235.91
  else if texture_is soil_texture "Stark Lehmiger Sand" then
    if current_ph <? 3.8 then 90.0
    else if ((5.1 <? current_ph) && (current_ph <? 5.9))%bool
         then -14.286 * current_ph + 84.286
    else if current_ph >? 5.8 then 0.0
    else -60.989 * current_ph + 322.04
  else if texture_is soil_texture "Sandiger Schl Lehm" then
    if current_ph <? 3.8 then 109.0
    else if ((5.3 <? current_ph) && (current_ph <? 6.2))%bool
         then -16.25 * current_ph + 100.75
    else if current_ph >? 6.1 then 0.0
    else -63.309 * current_ph + 349.87
  else if texture_is soil_texture "Toniger Lehm b.Ton" then
    if current_ph <? 3.8 then 121.0
    else if ((5.4 <? current_ph) && (current_ph <? 6.4))%bool
         then -17.778 * current_ph + 113.78
    else if current_ph >? 6.3 then 0.0
    else -65.0 * current_ph + 368.24
  else 0.0.

(** The forward curve selected by the crop type, in dt/ha of CaO. *)
Definition forward_curve (crop_type : string) (current_ph : Q)
    (mapped_texture : option string) : Q :=
  if String.eqb crop_type "Standard crops"
  then _calculate_standard_crops current_ph mapped_texture
  else _calculate_other_crops current_ph mapped_texture.

(** The tail shared by the improvement and the automatic branch:
    dt/ha to kg/ha, then the conversion to the lime type. *)
Definition to_lime_type (cao_dt_ha : Q) (lime_type : string) : Q :=
  let cao_kg_ha := cao_dt_ha * 100 in
  convert_lime_type cao_kg_ha lime_type.

Definition calculate_lime_requirement (current_ph : Q) (soil_texture : option string)
    (crop_type lime_type liming_mode : string)
    (caco3_loss_kg_ha : option Q) (nv : Q) : M Q :=
  let mapped_texture := map_soil_texture soil_texture in
  let optimal_ph := _get_optimal_ph mapped_texture crop_type in
  if String.eqb liming_mode "pH Maintenance" then
    if current_ph >=? optimal_ph then
      logger_info "pH Maintenance: current pH ({current_ph}) is at or above optimal ({optimal_ph}) - no lime needed" ;;;
      ret 0.0
    else
      match caco3_loss_kg_ha with
      | Some caco3_loss_kg_ha =>
          f <- dict_index LIME_CONVERSION_FACTORS "CaCO3" ;;
          let cao_loss_kg_ha := caco3_loss_kg_ha / f in
          r <- fdiv 100 nv ;;
          let lime_requirement := cao_loss_kg_ha * r in
          logger_info "VDLUFA pH Maintenance: CaCO3 loss {caco3_loss_kg_ha} kg/ha -> CaO {cao_loss_kg_ha:.1f} kg/ha -> Product {lime_requirement:.1f} kg/ha (NV={nv}%)" ;;;
          ret lime_requirement
      | None =>
          logger_warning "pH Maintenance: No rainfall data available - returning 0" ;;;
          ret 0.0
      end
  else if String.eqb liming_mode "Automatic" then
    if current_ph >=? optimal_ph then ret 0.0
    else ret (to_lime_type (forward_curve crop_type current_ph mapped_texture) lime_type)
  else
    ret (to_lime_type (forward_curve crop_type current_ph mapped_texture) lime_type).

Definition _reverse_standard_crops (cao_dt_ha : Q) (soil_texture : option string) : Q :=
  if texture_is soil_texture "Sand" then
    if cao_dt_ha >=? 45.0 then 4.0
    else if cao_dt_ha <=? 0.0 then 5.9
    else if cao_dt_ha <=? 3.93 then (69.93 - cao_dt_ha) / 11.852
    else (160.52 - cao_dt_ha) / 28.945
  else if texture_is soil_texture "Schwach Lehm Sand" then
    if cao_dt_ha >=? 77.0 then 4.0
    else if cao_dt_ha <=? 0.0 then 6.4
    else if cao_dt_ha <=? 11.67 then (106.67 - cao_dt_ha) / 16.667
    else (231.47 - cao_dt_ha) / 38.71
  else if texture_is soil_texture "Stark Lehmiger Sand" then
    if cao_dt_ha >=? 87.0 then 4.0
    else if cao_dt_ha <=? 0.0 then 6.8
    else if cao_dt_ha <=? 16.0 then (136.0 - cao_dt_ha) / 20.0
    else (302.54 - cao_dt_ha) / 47.912
  else if texture_is soil_texture "Sandiger Schl Lehm" then
    if cao_dt_ha >=? 117.0 then 4.0
    else if cao_dt_ha <=? 0.0 then 7.1
    else if cao_dt_ha <=? 19.75 then (150.87 - cao_dt_ha) / 21.25
    else (378.54 - cao_dt_ha) / 58.122
  else if texture_is soil_texture "Toniger Lehm b.Ton" then
    if cao_dt_ha >=? 160.0 then 4.0
    else if cao_dt_ha <=? 0.0 then 7.3
    else if cao_dt_ha <=? 22.22 then (162.22 - cao_dt_ha) / 22.222
    else (505.53 - cao_dt_ha) / 76.93
  else
    if cao_dt_ha >=? 45.0 then 4.0
    else if cao_dt_ha <=? 0.0 then 5.9
    else (160.52 - cao_dt_ha) / 28.945.

Definition _reverse_other_crops (cao_dt_ha : Q) (soil_texture : option string) : Q :=
  if texture_is soil_texture "Sand" then
    if cao_dt_ha >=? 50.0 then 3.4
    else if cao_dt_ha <=? 0.0 then 5.2
    else if cao_dt_ha <=? 5.6 then (41.6 - cao_dt_ha) / 8.0
    else (178.46 - cao_dt_ha) / 37.692
  else if texture_is soil_texture "Schwach Lehm Sand" then
    if cao_dt_ha >=? 83.0 then 3.3
    else if cao_dt_ha <=? 0.0 then 5.6
    else if cao_dt_ha <=? 9.33 then (74.667 - cao_dt_ha) / 13.333
    else (235.91 - cao_dt_ha) / 46.348
  else if texture_is soil_texture "Stark Lehmiger Sand" then
    if cao_dt_ha >=? 90.0 then 3.8
    else if cao_dt_ha <=? 0.0 then 5.9
    else if cao_dt_ha <=? 10.0 then (84.286 - cao_dt_ha) / 14.286
    else (322.04 - cao_dt_ha) / 60.989
  else if texture_is soil_texture "Sandiger Schl Lehm" then
    if cao_dt_ha >=? 109.0 then 3.8
    else if cao_dt_ha <=? 0.0 then 6.2
    else if cao_dt_ha <=? 15.0 then (100.75 - cao_dt_ha) / 16.25
    else (349.87 - cao_dt_ha) / 63.309
  else if texture_is soil_texture "Toniger Lehm b.Ton" then
    if cao_dt_ha >=? 121.0 then 3.8
    else if cao_dt_ha <=? 0.0 then 6.4
    else if cao_dt_ha <=? 17.78 then (113.78 - cao_dt_ha) / 17.778
    else (368.24 - cao_dt_ha) / 65.0
  else 5.0.

(** [reverse_calculate_ph].  The [for] loop of the source leaves at its
    first iteration ([break]) after one call of the forward calculation whose
    result is dropped; the proportional fallback below it decides. *)
Definition reverse_calculate_ph (lime_kg_ha : Q) (soil_texture : option string)
    (crop_type lime_type : string) (current_ph : option Q) : M Q :=
  match current_ph with
  | None =>
      let cao_kg_ha :=
        match dict_get LIME_CONVERSION_FACTORS lime_type with
        | Some conversion_factor => lime_kg_ha / conversion_factor
        | None => lime_kg_ha
        end in
      let cao_dt_ha := cao_kg_ha / 100 in
      let mapped_texture := map_soil_texture soil_texture in
      if String.eqb crop_type "Standard crops"
      then ret (_reverse_standard_crops cao_dt_ha mapped_texture)
      else ret (_reverse_other_crops cao_dt_ha mapped_texture)
  | Some current_ph =>
      let mapped_texture := map_soil_texture soil_texture in
      let optimal_ph := _get_optimal_ph mapped_texture crop_type in
      if lime_kg_ha <=? 0 then ret current_ph
      else
        lime_for_mid <- calculate_lime_requirement current_ph soil_texture
                          crop_type lime_type "pH Improvement" None 100.0 ;;
        lime_to_optimal <- calculate_lime_requirement current_ph soil_texture
                             crop_type lime_type "pH Improvement" None 100.0 ;;
        if lime_to_optimal <=? 0 then ret current_ph
        else
          q <- fdiv lime_kg_ha lime_to_optimal ;;
          let ph_increase_fraction := Qmin 1.0 q in
          let achieved_ph := current_ph + ph_increase_fraction * (optimal_ph - current_ph) in
          ret achieved_ph
  end.

End VDLUFACalculator.

(** ** The capacity-based (CEC) calculator *)

Module CECCalculator.

Definition TEXTURE_TO_USDA_MAPPING : list (string * string) :=
  [ ("Sand", "Sand");
    ("Schwach Lehm Sand", "Sandy Loam");
    ("Stark Lehmiger Sand", "Loamy Sand");
    ("Sandiger Schl Lehm", "Sandy Silt Loam");
    ("Toniger Lehm b.Ton", "Clay Loam");
    ("SAND", "Sand");
    ("SLIGHTLY_LOAMY_SAND", "Loamy Sand");
    ("VERY_LOAMY_SAND", "Loamy Sand");
    ("SANDY_LOAM", "Sandy Loam");
    ("SILTY_LOAM", "Silt Loam");
    ("CLAYEY_LOAM", "Clay Loam");
    ("SLIGHTLY_CLAYEY_LOAM", "Clay Loam");
    ("LOAMY_CLAY", "Clay Loam");
    ("SILTY_CLAY", "Silty Clay");
    ("SANDY_CLAY", "Sandy Clay");
    ("CLAY", "Clay");
    ("BOG", "Organic");
    ("HALF_BOG_SOIL", "Organic");
    ("sand", "Sand");
    ("clay", "Clay");
    ("clayey loam", "Clay Loam");
    ("loamy clay", "Clay Loam");
    ("sandy loam", "Sandy Loam");
    ("silty clay", "Silty Clay");
    ("silty loam", "Silt Loam");
    ("slightly loamy sand", "Loamy Sand");
    ("very loamy sand", "Loamy Sand");
    ("slightly clayey loam", "Clay Loam");
    ("sandy clay", "Sandy Clay");
    ("sandy clay loam", "Sandy Clay Loam");
    ("silt", "Silt");
    ("organic", "Organic");
    ("Loamy Sand", "Loamy Sand");
    ("Sandy Loam", "Sandy Loam");
    ("Sandy Silt Loam", "Sandy Silt Loam");
    ("Silt Loam", "Silt Loam");
    ("Clay Loam", "Clay Loam");
    ("Sandy Clay", "Sandy Clay");
    ("Silty Clay", "Silty Clay");
    ("Sandy Clay Loam", "Sandy Clay Loam");
    ("Loam", "Loam");
    ("Silt", "Silt");
    ("Organic", "Organic") ].

Definition convert_to_usda_texture (soil_texture : option string) : option string :=
  if negb (truthy soil_texture) then None
  else
    match soil_texture with
    | Some s =>
        let usda_texture := dict_get TEXTURE_TO_USDA_MAPPING s in
        if truthy usda_texture then usda_texture else Some s
    | None => None
    end.

Section WithCecData.

(** [SOIL_CEC_VALUES] once [load_cec_data] has run: the rows of
    [soil_cec.csv] in file order (empty when the file is absent).  The file
    is not part of the sources, so the table is a parameter. *)
Variable SOIL_CEC_VALUES : list (string * Q).

Definition cec_or (k : string) (default : Q) : Q :=
  match dict_get SOIL_CEC_VALUES k with Some v => v | None => default end.

(** The loop [for key, value in SOIL_CEC_VALUES.items()]: the first row
    whose lower-cased key is the lower-cased texture. *)
Fixpoint case_insensitive_match (rows : list (string * Q)) (soil_texture : string)
  : option Q :=
  match rows with
  | [] => None
  | (key, value) :: rows' =>
      if String.eqb (lower key) (lower soil_texture) then Some value
      else case_insensitive_match rows' soil_texture
  end.

Definition partial_match (texture_lower : string) : Q :=
  if contains "organic" texture_lower then cec_or "Organic" 100
  else if contains "clay loam" texture_lower then cec_or "Clay Loam" 25
  else if contains "sandy clay loam" texture_lower then cec_or "Sandy Clay Loam" 30
  else if contains "silty clay" texture_lower then cec_or "Silty Clay" 30
  else if contains "sandy clay" texture_lower then cec_or "Sandy Clay" 20
  else if contains "clay" texture_lower then cec_or "Clay" 40
  else if contains "sandy loam" texture_lower then cec_or "Sandy Loam" 10
  else if contains "sandy silt loam" texture_lower then cec_or "Sandy Silt Loam" 20
  else if contains "silt loam" texture_lower then cec_or "Silt Loam" 20
  else if contains "loamy sand" texture_lower then cec_or "Loamy Sand" 15
  else if contains "silt" texture_lower then cec_or "Silt" 15
  else if contains "sand" texture_lower then cec_or "Sand" 5
  else 15.0.

Definition get_cec_for_texture (soil_texture : option string) : Q :=
  match soil_texture with
  | None => 15.0
  | Some s =>
      if negb (truthy soil_texture) then 15.0
      else
        let mapped_texture := convert_to_usda_texture soil_texture in
        let by_mapped :=
          match mapped_texture with
          | Some m => if truthy mapped_texture then dict_get SOIL_CEC_VALUES m else None
          | None => None
          end in
        match by_mapped with
        | Some v => v
        | None =>
            match dict_get SOIL_CEC_VALUES s with
            | Some v => v
            | None =>
                match case_insensitive_match SOIL_CEC_VALUES s with
                | Some v => v
                | None => partial_match (lower s)
                end
            end
        end
  end.

End WithCecData.

(** The factor [K / 1000] of the source:
    [((cec_soil * 150 / 3500) * fine_dry_soil) / (nv * 10) / 0.5]. *)
Definition k_factor (cec_soil fine_dry_soil nv : Q) : M Q :=
  let numerator := (cec_soil * 150 / 3500) * fine_dry_soil in
  q <- fdiv numerator (nv * 10) ;;
  ret (q / 0.5).

Definition _calculate_standard (current_ph target_ph cec_soil fine_dry_soil nv dose : Q)
  : M Q :=
  if current_ph >=? target_ph then ret 0.0
  else
    let ph_difference := target_ph - current_ph in
    k <- k_factor cec_soil fine_dry_soil nv ;;
    let lime_requirement := k * (ph_difference * dose) * 1000 in
    ret (Qmax 0.0 lime_requirement).

Definition _s_cec_to_ph (s_cec_percentage : Q) : Q :=
  if s_cec_percentage <=? 50 then 4.5 + (s_cec_percentage / 50) * 2.0
  else 6.5 + ((s_cec_percentage - 50) / 50) * 1.5.

Definition _calculate_with_modified_s_cec
    (current_ph target_ph cec_soil fine_dry_soil nv dose : Q)
    (s_cec_percentage modified_s_cec : Q) : M Q :=
  let calculated_s_cec_ph := _s_cec_to_ph modified_s_cec in
  let average_ph := (current_ph + calculated_s_cec_ph) / 2 in
  if average_ph >? target_ph then ret 0.0
  else
    qty_current <- _calculate_standard current_ph target_ph cec_soil fine_dry_soil nv dose ;;
    qty_s_cec <- _calculate_standard calculated_s_cec_ph target_ph cec_soil fine_dry_soil nv dose ;;
    ret ((qty_current + qty_s_cec) / 2).

(** The last statement of [calculate_lime_requirement]: the forward
    formula towards [effective_target_ph], with or without the saturation
    adjustment. *)
Definition forward (current_ph effective_target_ph cec_soil fine_dry_soil nv dose : Q)
    (s_cec_percentage modified_s_cec : option Q) : M Q :=
  match modified_s_cec, s_cec_percentage with
  | Some m, Some s =>
      _calculate_with_modified_s_cec current_ph effective_target_ph cec_soil
        fine_dry_soil nv dose s m
  | _, _ =>
      _calculate_standard current_ph effective_target_ph cec_soil fine_dry_soil nv dose
  end.

Definition calculate_lime_requirement
    (current_ph target_ph cec_soil fine_dry_soil nv dose : Q)
    (s_cec_percentage modified_s_cec : option Q)
    (liming_mode : string) (caco3_loss_kg_ha : option Q) : M Q :=
  if String.eqb liming_mode "pH Maintenance" then
    if current_ph >=? target_ph then
      logger_info "CEC pH Maintenance: current pH ({current_ph}) is at or above target ({target_ph}) - no lime needed" ;;;
      ret 0.0
    else
      match caco3_loss_kg_ha with
      | Some caco3_loss_kg_ha =>
          let cao_loss_kg_ha := caco3_loss_kg_ha / 1.785 in
          r <- fdiv 100 nv ;;
          let lime_requirement := cao_loss_kg_ha * r in
          logger_info "CEC pH Maintenance: CaCO3 loss {caco3_loss_kg_ha} kg/ha -> CaO {cao_loss_kg_ha:.1f} kg/ha -> Product {lime_requirement:.1f} kg/ha (NV={nv}%)" ;;;
          ret lime_requirement
      | None =>
          logger_warning "CEC pH Maintenance: No rainfall data available - returning 0" ;;;
          ret 0.0
      end
  else if String.eqb liming_mode "Automatic" then
    if current_ph >? target_ph then ret 0.0
    else if current_ph >=? target_ph - 0.1 then
      match caco3_loss_kg_ha with
      | Some caco3_loss_kg_ha =>
          r <- fdiv 100 nv ;;
          let lime_requirement := caco3_loss_kg_ha * r in
          logger_info "CEC Automatic (Maintenance): Using rainfall-based CaCO3 loss: {lime_requirement:.1f} kg/ha" ;;;
          ret lime_requirement
      | None =>
          let effective_target_ph := current_ph + 0.1 in
          forward current_ph effective_target_ph cec_soil fine_dry_soil nv dose
            s_cec_percentage modified_s_cec
      end
    else
      forward current_ph target_ph cec_soil fine_dry_soil nv dose
        s_cec_percentage modified_s_cec
  else
    forward current_ph target_ph cec_soil fine_dry_soil nv dose
      s_cec_percentage modified_s_cec.

Definition reverse_calculate_ph (lime_kg_ha current_ph cec_soil fine_dry_soil nv dose : Q)
  : M Q :=
  if lime_kg_ha <=? 0 then ret current_ph
  else
    k <- k_factor cec_soil fine_dry_soil nv ;;
    let K := k * 1000 in
    if K * dose =? 0 then ret current_ph
    else
      q <- fdiv lime_kg_ha (K * dose) ;;
      let target_ph := current_ph + q in
      ret target_ph.

End CECCalculator.

(** ** The per-sample orchestration *)

Module LimingPrescription.

(** The keys of a soil sample that the two prescription functions read
    ([sample.get(key)]: [None] when the key is absent). *)
Record sample : Type := {
  ph_value : option Q;
  soil_texture : option string;
  caco3_loss_kg_ha : option Q
}.

(** The method parameters, a dict read with [params.get(key, default)]:
    a field is [None] when its key is absent. *)
Record params : Type := {
  crop_type : option string;
  lime_type : option string;
  default_soil_texture : option string;
  liming_mode : option string;
  max_application_rate : option Q;
  nv : option Q;
  target_ph : option Q;
  cec_soil : option Q;
  fine_dry_soil : option Q;
  dose : option Q;
  s_cec_percentage : option Q;
  modified_s_cec : option Q
}.

Definition get_or {A} (field : option A) (default : A) : A :=
  match field with Some v => v | None => default end.

(** [(lime_requirement, applied_mode, target_ph, was_capped)]. *)
Definition prescription : Type := (Q * string * option Q * bool)%type.

Definition lime_of (r : prescription) : Q := fst (fst (fst r)).
Definition mode_of (r : prescription) : string := snd (fst (fst r)).
Definition target_of (r : prescription) : option Q := snd (fst r).
Definition capped_of (r : prescription) : bool := snd r.

(** [liming_mode in ["pH Maintenance", "Automatic"]]. *)
Definition uses_loss (liming_mode : string) : bool :=
  (String.eqb liming_mode "pH Maintenance" || String.eqb liming_mode "Automatic")%bool.

(** The label of the mode that is applied, from the requested mode, the
    current pH and the reference pH (the optimal pH of the empirical method,
    the target pH of the CEC method); [what] is the word the two functions
    differ in. *)
Definition applied_mode_label (what liming_mode : string) (current_ph reference_ph : Q)
  : string :=
  if String.eqb liming_mode "Automatic" then
    if current_ph >? reference_ph then "None (pH above " ++ what ++ ")"
    else if current_ph >=? reference_ph - 0.1 then "Maintenance"
    else "Improvement"
  else if String.eqb liming_mode "pH Maintenance" then
    if current_ph >=? reference_ph then "None (pH at/above " ++ what ++ ")"
    else "Maintenance"
  else "Improvement".

(** The cap and the reported pH, as both functions end: [inverse] is the
    calculator's [reverse_calculate_ph] at the capped dose. *)
Definition cap_and_report (liming_mode applied_mode : string)
    (current_ph reference_ph lime_req : Q) (max_rate : option Q)
    (inverse : Q -> M Q) : M prescription :=
  let target_ph :=
    if String.eqb liming_mode "pH Maintenance" then current_ph else reference_ph in
  match max_rate with
  | Some max_rate =>
      if lime_req >? max_rate then
        if negb (String.eqb liming_mode "pH Maintenance") then
          target_ph <- inverse max_rate ;;
          ret (max_rate, applied_mode, Some target_ph, true)
        else ret (max_rate, applied_mode, Some target_ph, true)
      else ret (lime_req, applied_mode, Some target_ph, false)
  | None => ret (lime_req, applied_mode, Some target_ph, false)
  end.

(** *** The empirical path *)

Definition vdlufa_mode (params : params) : string :=
  get_or (liming_mode params) "pH Improvement".

Definition vdlufa_crop (params : params) : string :=
  get_or (crop_type params) "Standard crops".

Definition vdlufa_lime (params : params) : string :=
  get_or (lime_type params) "CaCO3".

(** The texture handed to the calculator: the sample's, or the default. *)
Definition vdlufa_texture (sample : sample) (params : params) : option string :=
  match soil_texture sample with
  | None => Some (get_or (default_soil_texture params) "Sandiger Schl Lehm")
  | Some _ => soil_texture sample
  end.

Definition vdlufa_optimal_ph (sample : sample) (params : params) : Q :=
  let mapped_texture := VDLUFACalculator.map_soil_texture (vdlufa_texture sample params) in
  VDLUFACalculator._get_optimal_ph mapped_texture (vdlufa_crop params).

(** The dose before the cap. *)
Definition vdlufa_nominal (sample : sample) (params : params) (current_ph : Q) : M Q :=
  let liming_mode := vdlufa_mode params in
  let caco3_loss := if uses_loss liming_mode then caco3_loss_kg_ha sample else None in
  let nv := get_or (nv params) 100.0 in
  VDLUFACalculator.calculate_lime_requirement current_ph (vdlufa_texture sample params)
    (vdlufa_crop params) (vdlufa_lime params) liming_mode caco3_loss nv.

Definition vdlufa_inverse (sample : sample) (params : params) (current_ph lime_req : Q)
  : M Q :=
  VDLUFACalculator.reverse_calculate_ph lime_req (vdlufa_texture sample params)
    (vdlufa_crop params) (vdlufa_lime params) (Some current_ph).

Definition _calculate_vdlufa_prescription (sample : sample) (params : params)
  : M prescription :=
  match ph_value sample with
  | None => ret (0.0, "N/A", None, false)
  | Some current_ph =>
      let liming_mode := vdlufa_mode params in
      let optimal_ph := vdlufa_optimal_ph sample params in
      let applied_mode := applied_mode_label "optimal" liming_mode current_ph optimal_ph in
      lime_req <- vdlufa_nominal sample params current_ph ;;
      cap_and_report liming_mode applied_mode current_ph optimal_ph lime_req
        (max_application_rate params) (vdlufa_inverse sample params current_ph)
  end.

(** *** The CEC path *)

Section WithCecData.

Variable SOIL_CEC_VALUES : list (string * Q).

Definition cec_mode (params : params) : string :=
  get_or (liming_mode params) "pH Improvement".

Definition cec_target_ph (params : params) : Q := get_or (target_ph params) 6.5.

Definition cec_dose (params : params) : Q := get_or (dose params) 1.0.

(** The exchange capacity: from the texture when the sample has one, else
    the override or the default. *)
Definition cec_soil_value (sample : sample) (params : params) : Q :=
  if truthy (soil_texture sample)
  then CECCalculator.get_cec_for_texture SOIL_CEC_VALUES (soil_texture sample)
  else get_or (cec_soil params) 15.0.

(** The dose before the cap. *)
Definition cec_nominal (sample : sample) (params : params)
    (current_ph fine_dry_soil nv : Q) : M Q :=
  let liming_mode := cec_mode params in
  let caco3_loss := if uses_loss liming_mode then caco3_loss_kg_ha sample else None in
  CECCalculator.calculate_lime_requirement current_ph (cec_target_ph params)
    (cec_soil_value sample params) fine_dry_soil nv (cec_dose params)
    (s_cec_percentage params) (modified_s_cec params) liming_mode caco3_loss.

Definition cec_inverse (sample : sample) (params : params)
    (current_ph fine_dry_soil nv lime_req : Q) : M Q :=
  CECCalculator.reverse_calculate_ph lime_req current_ph
    (cec_soil_value sample params) fine_dry_soil nv (cec_dose params).

Definition _calculate_cec_prescription (sample : sample) (params : params)
  : M prescription :=
  match ph_value sample, fine_dry_soil params, nv params with
  | Some current_ph, Some fine_dry_soil, Some nv =>
      let liming_mode := cec_mode params in
      let target_ph := cec_target_ph params in
      let applied_mode := applied_mode_label "target" liming_mode current_ph target_ph in
      lime_req <- cec_nominal sample params current_ph fine_dry_soil nv ;;
      cap_and_report liming_mode applied_mode current_ph target_ph lime_req
        (max_application_rate params) (cec_inverse sample params current_ph fine_dry_soil nv)
  | _, _, _ => ret (0.0, "N/A", None, false)
  end.

End WithCecData.

(** *** The parameter dicts of the two API routes ([api/liming.py]) *)

(** [/calculate/vdlufa]: the keys [crop_type], [lime_type], [liming_mode],
    [default_soil_texture] and [max_application_rate]; no [nv]. *)
Definition vdlufa_request (crop lime mode default_texture : string) (max_rate : option Q)
  : params :=
  {| crop_type := Some crop; lime_type := Some lime;
     default_soil_texture := Some default_texture; liming_mode := Some mode;
     max_application_rate := max_rate; nv := None; target_ph := None;
     cec_soil := None; fine_dry_soil := None; dose := None;
     s_cec_percentage := None; modified_s_cec := None |}.

(** [/calculate/cec]: the keys [target_ph], [fine_dry_soil], [nv], [dose],
    [cec_soil], [liming_mode], [max_application_rate], [s_cec_percentage]
    and [modified_s_cec]. *)
Definition cec_request (target fds nv_ dose_ cec : Q) (mode : string)
    (max_rate s_cec mod_s_cec : option Q) : params :=
  {| crop_type := None; lime_type := None; default_soil_texture := None;
     liming_mode := Some mode; max_application_rate := max_rate; nv := Some nv_;
     target_ph := Some target; cec_soil := Some cec; fine_dry_soil := Some fds;
     dose := Some dose_; s_cec_percentage := s_cec; modified_s_cec := mod_s_cec |}.

(** *** What the cap is to do

    For a nominal dose [nominal] and a ceiling [max_rate], a prescription [r]
    is capped as the code caps it when: the dose is the ceiling and the flag
    is set if the nominal dose exceeds the ceiling, the dose is the nominal
    dose and the flag is clear otherwise; the reported pH is the current pH
    when the requested mode is [pH Maintenance]; and for any other requested
    mode it is what [inverse] returns at the ceiling if the dose was capped,
    the reference pH if it was not. *)
Definition capped_as_requested (r : prescription) (liming_mode : string)
    (current_ph reference_ph nominal max_rate : Q) (inverse : Q -> M Q) : Prop :=
  (max_rate < nominal -> lime_of r = max_rate /\ capped_of r = true) /\
  (nominal <= max_rate -> lime_of r = nominal /\ capped_of r = false) /\
  (liming_mode = "pH Maintenance" -> target_of r = Some current_ph) /\
  (liming_mode <> "pH Maintenance" -> max_rate < nominal ->
     exists t, snd (inverse max_rate) = Ok t /\ target_of r = Some t) /\
  (liming_mode <> "pH Maintenance" -> nominal <= max_rate ->
     target_of r = Some reference_ph).

End LimingPrescription.

(** ** The bicarbonate factor of the leaching-loss model *)

Module RainfallLookup.

Local Open Scope R_scope.

(** [x ** y] on floats, for an exponent [y] that is positive and not an
    integer: zero at zero, and a complex number ([None] here) for a
    negative base. *)
Definition float_pow (x y : R) : option R :=
  if Rlt_dec x 0 then None
  else if Req_dec_T x 0 then Some 0
  else Some (Rpower x y).

(** [get_bicarbonate_factor].  On a complex power the comparison inside
    [min] raises [TypeError]. *)
Definition get_bicarbonate_factor (ph : R) : result R :=
  let a := 0.002304 in
  let b := 5.792337 in
  match float_pow ph b with
  | Some p =>
      let bicarb_factor := a * p in
      Ok (Rmax 5.0 (Rmin 500.0 bicarb_factor))
  | None => Raise TypeError
  end.

End RainfallLookup.

(** ** Two builtins on lists of floats *)

(** [sum(l)]. *)
Fixpoint fsum (l : list Q) : Q :=
  match l with
  | [] => 0
  | x :: l' => x + fsum l'
  end.

(** [len(l)] as a float operand. *)
Definition flen {A} (l : list A) : Q := inject_Z (Z.of_nat (length l)).

(** ** The rest of the orchestration ([calculate_prescription]) *)

Module Orchestration.

Import LimingPrescription.

(** The texture that [calculate_prescription] reports and hands to the
    leaching-loss model (its variable [actual_texture_used]), for the method
    the prescription object was built with. *)
Definition actual_texture_used (method : string) (sample : sample) (params : params)
  : option string :=
  let original_texture := soil_texture sample in
  if String.eqb method "VDLUFA" then
    match original_texture with
    | None => Some (get_or (default_soil_texture params) "Sandiger Schl Lehm")
    | Some _ =>
        let mapped_texture := VDLUFACalculator.map_soil_texture original_texture in
        if truthy mapped_texture then mapped_texture
        else Some (get_or (default_soil_texture params) "Sandiger Schl Lehm")
    end
  else
    match original_texture with
    | None => Some (get_or (default_soil_texture params) "Sandy Loam")
    | Some _ => CECCalculator.convert_to_usda_texture original_texture
    end.

(** The parameters [params] with another value under the key
    [default_soil_texture]. *)
Definition with_default_soil_texture (params : params) (default : option string)
  : LimingPrescription.params :=
  {| crop_type := crop_type params; lime_type := lime_type params;
     default_soil_texture := default; liming_mode := liming_mode params;
     max_application_rate := max_application_rate params; nv := nv params;
     target_ph := target_ph params; cec_soil := cec_soil params;
     fine_dry_soil := fine_dry_soil params; dose := dose params;
     s_cec_percentage := s_cec_percentage params;
     modified_s_cec := modified_s_cec params |}.

(** The parameters [params] with another value under the key [cec_soil]. *)
Definition with_cec_soil (params : params) (cec : option Q)
  : LimingPrescription.params :=
  {| crop_type := crop_type params; lime_type := lime_type params;
     default_soil_texture := default_soil_texture params;
     liming_mode := liming_mode params;
     max_application_rate := max_application_rate params; nv := nv params;
     target_ph := target_ph params; cec_soil := cec;
     fine_dry_soil := fine_dry_soil params; dose := dose params;
     s_cec_percentage := s_cec_percentage params;
     modified_s_cec := modified_s_cec params |}.

(** The sample [sample] with another value under the key
    [caco3_loss_kg_ha]. *)
Definition with_caco3_loss (sample : sample) (loss : option Q)
  : LimingPrescription.sample :=
  {| ph_value := ph_value sample; soil_texture := soil_texture sample;
     caco3_loss_kg_ha := loss |}.

End Orchestration.

(** ** The summary of the API routes ([api/liming.py]) *)

Module Api.

(** The keys of a result that the summary reads. *)
Record result_row : Type := {
  zone_area : option Q;
  lime_requirement_kg_ha : Q
}.

(** [r.get('zone_area', 0) or 0]: a missing or zero area counts 0. *)
Definition area_or_zero (r : result_row) : Q :=
  match zone_area r with
  | Some a => if a =? 0 then 0 else a
  | None => 0
  end.

(** [total_area = sum(r.get('zone_area', 0) or 0 for r in results)]. *)
Definition total_area (results : list result_row) : Q :=
  fsum (map area_or_zero results).

(** [avg_lime = sum(r['lime_requirement_kg_ha'] for r in results) /
    len(results) if results else 0]. *)
Definition avg_lime (results : list result_row) : M Q :=
  match results with
  | [] => ret 0
  | _ :: _ => fdiv (fsum (map lime_requirement_kg_ha results)) (flen results)
  end.

End Api.

(** ** Centroids of sample boundaries ([utils/rainfall_lookup.py]) *)

Module RainfallGeometry.

(** A GeoJSON position is a list of floats, a ring a list of positions.  The
    geometries are those whose [coordinates] have the nesting their [type]
    announces; any other [type] is [OtherGeometry]. *)
Definition position : Type := list Q.
Definition ring : Type := list position.

Inductive geometry : Type :=
| Point (coordinates : position)
| Polygon (coordinates : list ring)
| MultiPolygon (coordinates : list (list ring))
| OtherGeometry (geom_type : string).

(** What a centroid computation ends in: a tuple of floats or one of the
    two exceptions the indexing and the division can raise. *)
Inductive outcome : Type :=
| Tuple (t : list Q)
| IndexError
| ZeroDivision.

(** [[coord[i] for coord in ring]]: [None] stands for [IndexError]. *)
Fixpoint column (i : nat) (ring : ring) : option (list Q) :=
  match ring with
  | [] => Some []
  | coord :: ring' =>
      match nth_error coord i, column i ring' with
      | Some x, Some xs => Some (x :: xs)
      | _, _ => None
      end
  end.

Definition calculate_polygon_centroid (ring : ring) : outcome :=
  match column 0 ring with
  | None => IndexError
  | Some lons =>
      match column 1 ring with
      | None => IndexError
      | Some lats =>
          if flen lons =? 0 then ZeroDivision
          else
            let centroid_lon := fsum lons / flen lons in
            let centroid_lat := fsum lats / flen lats in
            Tuple [centroid_lon; centroid_lat]
      end
  end.

(** [get_geometry_centroid]: every exception is caught and gives [None]. *)
Definition get_geometry_centroid (geometry : geometry) : option (list Q) :=
  let caught (o : outcome) : option (list Q) :=
    match o with Tuple t => Some t | IndexError | ZeroDivision => None end in
  match geometry with
  | Point [] => None
  | Point coordinates => Some (firstn 2 coordinates)
  | Polygon [] => None
  | Polygon (exterior_ring :: _) => caught (calculate_polygon_centroid exterior_ring)
  | MultiPolygon [] => None
  | MultiPolygon (first_polygon :: _) =>
      match first_polygon with
      | [] => None
      | exterior_ring :: _ => caught (calculate_polygon_centroid exterior_ring)
      end
  | OtherGeometry _ => None
  end.

(** A position of at least two coordinates inside a box. *)
Definition in_box (xlo xhi ylo yhi : Q) (pos : position) : Prop :=
  exists x y rest, pos = x :: y :: rest /\
                   (xlo <= x /\ x <= xhi) /\ (ylo <= y /\ y <= yhi).

End RainfallGeometry.

(** ** The leaching-loss model ([utils/rainfall_lookup.py]) *)

Module LeachingLoss.

Local Open Scope R_scope.

Definition VDLUFA_TEXTURE_TO_CLAY : list (string * R) :=
  [ ("Sand", 5);
    ("Schwach Lehm Sand", 12);
    ("Stark Lehmiger Sand", 12);
    ("Sandiger Schl Lehm", 15);
    ("Toniger Lehm b.Ton", 32);
    ("Lehm", 20);
    ("Schluff", 10);
    ("Ton", 60) ].

Definition CEC_TEXTURE_TO_CLAY : list (string * R) :=
  [ ("Sand", 5);
    ("Loamy Sand", 8);
    ("Sandy Loam", 10);
    ("Loam", 18);
    ("Silt Loam", 15);
    ("Silt", 6);
    ("Sandy Clay Loam", 27);
    ("Clay Loam", 33);
    ("Sandy Clay", 42);
    ("Silty Clay", 47);
    ("Clay", 60);
    ("Sandy Silt Loam", 17);
    ("Organic", 20);
    ("sand", 5);
    ("loamy sand", 8);
    ("sandy loam", 10);
    ("loam", 18);
    ("silt loam", 15);
    ("silt", 6);
    ("sandy clay loam", 27);
    ("clay loam", 33);
    ("sandy clay", 42);
    ("silty clay", 47);
    ("clay", 60);
    ("organic", 20) ].

Definition calculate_drainage_coefficient (clay_percent : R) : R :=
  0.6 - (0.005 * clay_percent).

(** The dict that [calculate_caco3_loss] returns. *)
Record caco3_loss_data : Type := {
  caco3_loss : R;
  clay_percent : R;
  drainage_coef : R;
  bicarbonate_factor : R
}.

(** The clay table of the method: [CEC_TEXTURE_TO_CLAY] for ["CEC"], the
    VDLUFA table for anything else. *)
Definition clay_table (method : string) : list (string * R) :=
  if String.eqb method "CEC" then CEC_TEXTURE_TO_CLAY else VDLUFA_TEXTURE_TO_CLAY.

Section WithRound.

(** Python's [round(x, ndigits)] on floats, which the reals do not define:
    a parameter. *)
Variable round : R -> Z -> R.

(** [calculate_caco3_loss]; its log records are left out.  The [except]
    clause turns the [TypeError] of a negative pH into [None]. *)
Definition calculate_caco3_loss (precipitation_mm : R) (soil_texture : string)
    (ph : R) (method : string) : option caco3_loss_data :=
  match dict_get (clay_table method) soil_texture with
  | None => None
  | Some clay_percent =>
      let drainage_coef := calculate_drainage_coefficient clay_percent in
      match RainfallLookup.get_bicarbonate_factor ph with
      | Raise _ => None
      | Ok bicarbonate_factor =>
          let caco3_loss :=
            precipitation_mm * drainage_coef * bicarbonate_factor * 0.82 / 100 in
          Some {| caco3_loss := round caco3_loss 1;
                  clay_percent := clay_percent;
                  drainage_coef := round drainage_coef 3;
                  bicarbonate_factor := bicarbonate_factor |}
      end
  end.

End WithRound.

End LeachingLoss.

(** ** When no lime is due *)

(** The two situations in which no lime is due: [pH Maintenance] requested
    at or above the reference pH, [Automatic] requested above it. *)
Definition no_lime_due (liming_mode : string) (current_ph reference_ph : Q) : Prop :=
  (liming_mode = "pH Maintenance" /\ reference_ph <= current_ph) \/
  (liming_mode = "Automatic" /\ reference_ph < current_ph).

(** ** The formulas of the specification *)

(** The forward formula of the CEC method as the specification writes it:
    [K = ((cecSoil * 150/3500) * fineDrySoil) / (nv * 10) / 0.5] and
    [requirement = K * (targetPh - currentPh) * dose * 1000]. *)
Definition spec_K (cec_soil fine_dry_soil nv : Q) : Q :=
  ((cec_soil * 150 / 3500) * fine_dry_soil) / (nv * 10) / 0.5.

Definition spec_requirement (current_ph target_ph cec_soil fine_dry_soil nv dose : Q) : Q :=
  spec_K cec_soil fine_dry_soil nv * (target_ph - current_ph) * dose * 1000.

(** The maintenance dose as the specification writes it: CaCO3 loss to
    CaO, then CaO to product. *)
Definition spec_maintenance_dose (caco3_loss nv : Q) : Q :=
  (caco3_loss / 1.785) * (100 / nv).

(** The bicarbonate factor as the specification writes it: the power law
    [a * pH^b] clamped to [[5, 500]]. *)
Definition spec_bicarbonate (ph : R) : R :=
  Rmax 5 (Rmin 500 (0.002304 * Rpower ph 5.792337))%R.

(** * Properties *)

(** ** Comparisons on floats, reflected *)

Lemma Qle_bool_false (x y : Q) : (x <=? y) = false -> y < x.
Proof.
  intros H. apply Qnot_le_lt. intros Hle.
  apply Qle_bool_iff in Hle. congruence.
Qed.

Lemma Qle_bool_true (x y : Q) : (x <=? y) = true -> x <= y.
Proof. apply Qle_bool_iff. Qed.

Lemma Qeq_bool_false (x y : Q) : (x =? y) = false -> ~ x == y.
Proof. intros H Heq. apply Qeq_bool_iff in Heq. congruence. Qed.

Lemma Qeq_bool_true (x y : Q) : (x =? y) = true -> x == y.
Proof. apply Qeq_bool_iff. Qed.

(** Split on the first float comparison of the goal and keep the outcome
    as an order fact. *)
Ltac qcase :=
  unfold Qgtb, Qgeb, Qltb in *;
  match goal with
  | |- context [Qle_bool ?a ?b] =>
      let H := fresh "Hcmp" in
      destruct (Qle_bool a b) eqn:H;
      [apply Qle_bool_true in H | apply Qle_bool_false in H]
  | |- context [Qeq_bool ?a ?b] =>
      let H := fresh "Hcmp" in
      destruct (Qeq_bool a b) eqn:H;
      [apply Qeq_bool_true in H | apply Qeq_bool_false in H]
  end;
  cbn [negb andb orb].

Ltac qcases := repeat qcase.

(** ** The monad and the float division *)

Lemma bind_ret_l {A B} (a : A) (f : A -> M B) : bind (ret a) f = f a.
Proof. unfold bind, ret. destruct (f a). reflexivity. Qed.

Lemma fdiv_value (x y : Q) : ~ y == 0 -> fdiv x y = ret (x / y).
Proof.
  intros Hy. unfold fdiv. destruct (y =? 0) eqn:E; [| reflexivity].
  apply Qeq_bool_true in E. contradiction.
Qed.

Lemma bind_Ok_inv {A B} (m : M A) (f : A -> M B) (b : B) :
  snd (bind m f) = Ok b -> exists a, snd m = Ok a /\ snd (f a) = Ok b.
Proof.
  destruct m as [l [a | e]]; cbn.
  - destruct (f a) as [l' r] eqn:E. cbn. intros ->. exists a. now rewrite E.
  - discriminate.
Qed.

Lemma snd_bind_Ok {A B} (m : M A) (f : A -> M B) (a : A) :
  snd m = Ok a -> snd (bind m f) = snd (f a).
Proof.
  destruct m as [l r]. cbn. intros ->. now destruct (f a).
Qed.

Lemma fdiv_raises (x y : Q) : y == 0 -> fdiv x y = raise ZeroDivisionError.
Proof.
  intros Hy. unfold fdiv. destruct (y =? 0) eqn:E; [reflexivity |].
  apply Qeq_bool_false in E. contradiction.
Qed.

(** ** The texture resolver of the empirical method *)

Section MapSoilTexture.

Import VDLUFACalculator.

Lemma upper_ascii_not_lower_o (c : ascii) : upper_ascii c <> "o"%char.
Proof.
  destruct c as [[] [] [] [] [] [] [] []]; vm_compute; discriminate.
Qed.

Lemma upper_ascii_not_lower_a (c : ascii) : upper_ascii c <> "a"%char.
Proof.
  destruct c as [[] [] [] [] [] [] [] []]; vm_compute; discriminate.
Qed.

(** The only keys of [TEXTURE_MAPPING] that map to [None]. *)
Lemma TEXTURE_MAPPING_None (s : string) :
  dict_get TEXTURE_MAPPING s = Some None -> s = "Bog" \/ s = "half-bog soil".
Proof.
  unfold TEXTURE_MAPPING. cbn [dict_get].
  repeat match goal with
         | |- context [String.eqb s ?k] =>
             let E := fresh "E" in
             destruct (String.eqb s k) eqn:E;
             [apply String.eqb_eq in E; subst; auto; try discriminate | clear E]
         end.
  discriminate.
Qed.

(** No upper-cased string is one of those two keys. *)
Lemma upper_not_None_key (s : string) :
  dict_get TEXTURE_MAPPING (upper s) <> Some None.
Proof.
  intros H. apply TEXTURE_MAPPING_None in H. destruct H as [H | H].
  - destruct s as [| c1 [| c2 s']]; cbn in H; try discriminate.
    injection H as _ H2 _. now apply upper_ascii_not_lower_o in H2.
  - destruct s as [| c1 [| c2 s']]; cbn in H; try discriminate.
    injection H as _ H2 _. now apply upper_ascii_not_lower_a in H2.
Qed.

Lemma keyword_guess_None (l : string) :
  keyword_guess l = None <->
  contains "sand" l = false /\ contains "clay" l = false /\
  contains "loam" l = false /\ contains "lehm" l = false /\
  contains "silt" l = false.
Proof.
  unfold keyword_guess.
  destruct (contains "sand" l), (contains "clay" l), (contains "loam" l),
    (contains "lehm" l), (contains "silt" l); cbn; intuition discriminate.
Qed.

(** Every texture the resolver returns is one of the five classes or the
    name [Stark Lehm Sand] of the keyword fallback. *)
Lemma map_soil_texture_range (t : option string) (r : string) :
  map_soil_texture t = Some r ->
  In r SOIL_TEXTURES \/ r = "Stark Lehm Sand".
Proof.
  assert (Htable : forall k, dict_get TEXTURE_MAPPING k = Some (Some r) -> In r SOIL_TEXTURES).
  { intros k. unfold TEXTURE_MAPPING. cbn [dict_get].
    repeat match goal with
           | |- context [String.eqb k ?k'] => destruct (String.eqb k k')
           end;
    intros H; try discriminate; injection H as <-; cbn; tauto. }
  destruct t as [s |]; [| discriminate]. unfold map_soil_texture.
  destruct (dict_get TEXTURE_MAPPING s) as [v |] eqn:E1.
  - intros ->. left. eauto.
  - destruct (dict_get TEXTURE_MAPPING (upper s)) as [v |] eqn:E2.
    + intros ->. left. eauto.
    + unfold keyword_guess.
      repeat match goal with
             | |- context [if ?b then _ else _] => destruct b
             end; intros H; try discriminate; injection H as <-; cbn; tauto.
Qed.

End MapSoilTexture.

(** C8, as stated, fails: an unrecognised, non-empty texture without any of
    the keywords is resolved to [None]. *)
Lemma map_soil_texture_unrecognised_is_None :
  "gravel" <> "" /\
  dict_get VDLUFACalculator.TEXTURE_MAPPING "gravel" = None /\
  VDLUFACalculator.map_soil_texture (Some "gravel") = None.
Proof. split; [discriminate | split; reflexivity]. Qed.

(** C8 (amended): [map_soil_texture] returns [None] exactly when the input
    is [None], when it is one of the two table keys that map to [None]
    ([Bog], [half-bog soil]), or when it is no table key, neither as it is
    nor upper-cased, and its lower-cased form contains none of the keywords
    sand, clay, loam, lehm, silt (the empty string is such an input).  Every
    other input yields a texture name. *)
Theorem map_soil_texture_None_iff (t : option string) :
  VDLUFACalculator.map_soil_texture t = None <->
  (t = None \/ t = Some "Bog" \/ t = Some "half-bog soil" \/
   exists s, t = Some s /\
     dict_get VDLUFACalculator.TEXTURE_MAPPING s = None /\
     dict_get VDLUFACalculator.TEXTURE_MAPPING (upper s) = None /\
     contains "sand" (lower s) = false /\ contains "clay" (lower s) = false /\
     contains "loam" (lower s) = false /\ contains "lehm" (lower s) = false /\
     contains "silt" (lower s) = false).
Proof.
  split.
  - destruct t as [s |]; [| auto]. unfold VDLUFACalculator.map_soil_texture.
    destruct (dict_get VDLUFACalculator.TEXTURE_MAPPING s) as [v |] eqn:E1.
    + intros ->. apply TEXTURE_MAPPING_None in E1.
      destruct E1 as [-> | ->]; auto.
    + destruct (dict_get VDLUFACalculator.TEXTURE_MAPPING (upper s)) as [v |] eqn:E2.
      * intros ->. now apply upper_not_None_key in E2.
      * intros H. apply keyword_guess_None in H.
        right. right. right. exists s. auto.
  - intros [-> | [-> | [-> | (s & -> & E1 & E2 & H)]]]; try reflexivity.
    unfold VDLUFACalculator.map_soil_texture. rewrite E1, E2.
    now apply keyword_guess_None.
Qed.

Lemma map_soil_texture_None_iff_witness :
  VDLUFACalculator.map_soil_texture (Some "") = None /\
  VDLUFACalculator.map_soil_texture (Some "half-bog soil") = None.
Proof.
  split.
  - apply (proj2 (map_soil_texture_None_iff (Some ""))).
    right. right. right. exists "". tauto.
  - apply (proj2 (map_soil_texture_None_iff (Some "half-bog soil"))).
    right. right. left. reflexivity.
Defined.

(** C10: the keyword fallback resolves a texture that names loam (and
    neither sand nor clay) to [Stark Lehm Sand], which is not one of the
    five entries of [SOIL_TEXTURES] ([Stark Lehmiger Sand] is); the
    optimal-pH table and both dose curves then take their unknown-texture
    defaults. *)
Theorem map_soil_texture_loam_outside_SOIL_TEXTURES :
  VDLUFACalculator.map_soil_texture (Some "loam") = Some "Stark Lehm Sand" /\
  ~ In "Stark Lehm Sand" VDLUFACalculator.SOIL_TEXTURES /\
  In "Stark Lehmiger Sand" VDLUFACalculator.SOIL_TEXTURES /\
  (forall crop_type,
      VDLUFACalculator._get_optimal_ph (Some "Stark Lehm Sand") crop_type = 6.5) /\
  (forall current_ph,
      VDLUFACalculator._calculate_other_crops current_ph (Some "Stark Lehm Sand") = 0.0) /\
  (forall current_ph,
      VDLUFACalculator._calculate_standard_crops current_ph (Some "Stark Lehm Sand") =
      VDLUFACalculator._calculate_standard_crops current_ph None).
Proof.
  split; [reflexivity |]. split.
  { cbn. intros H. repeat destruct H as [H | H]; try discriminate; exact H. }
  split; [cbn; tauto |]. split.
  { intros crop_type. unfold VDLUFACalculator._get_optimal_ph.
    unfold VDLUFACalculator.optimal_ph_values. cbn [dict_get].
    destruct (String.eqb crop_type "Standard crops"); [reflexivity |].
    destruct (String.eqb crop_type "Other crops"); reflexivity. }
  split; intros current_ph; reflexivity.
Qed.

(** ** The forward curves and the optimal-pH table *)

(** C6: the optimal-pH table and the dose curves disagree.  For
    [Other crops] the table gives, for each of the five textures, a pH at
    which the curve is still on its last descending segment, so the dose at
    the tabulated optimum is positive (0.8 dt/ha for [Sand] at pH 5.1, the
    curve reaching zero at 5.2 only).  The dose is not monotone either: for
    [Standard crops] on [Stark Lehmiger Sand] the flat ceiling below pH 4 is
    87 while the segment that starts at pH 4 gives 110.892 there, and on
    [Sand] the dose rises when pH crosses the segment boundary 5.3. *)
Theorem other_crops_dose_positive_at_optimal_ph :
  VDLUFACalculator._get_optimal_ph (Some "Sand") "Other crops" == 5.1 /\
  VDLUFACalculator._calculate_other_crops 5.1 (Some "Sand") == 0.8 /\
  returns (VDLUFACalculator.calculate_lime_requirement 5.1 (Some "Sand")
             "Other crops" "CaO" "pH Improvement" None 100) 80 /\
  (forall t, In t VDLUFACalculator.SOIL_TEXTURES ->
     0 < VDLUFACalculator._calculate_other_crops
           (VDLUFACalculator._get_optimal_ph (Some t) "Other crops") (Some t)) /\
  VDLUFACalculator._calculate_standard_crops 3.9 (Some "Stark Lehmiger Sand") <
  VDLUFACalculator._calculate_standard_crops 4 (Some "Stark Lehmiger Sand") /\
  VDLUFACalculator._calculate_standard_crops 5.3 (Some "Sand") <
  VDLUFACalculator._calculate_standard_crops 5.3001 (Some "Sand").
Proof.
  split; [reflexivity |]. split; [reflexivity |]. split; [reflexivity |].
  split.
  { intros t Ht. cbn in Ht.
    repeat destruct Ht as [<- | Ht]; try reflexivity. contradiction. }
  split; reflexivity.
Qed.

(** For [Standard crops] the table and the curves agree on the zero: the
    dose is 0 from the tabulated optimum on. *)
Lemma standard_crops_zero_from_optimal_ph (t : string) (ph : Q) :
  In t VDLUFACalculator.SOIL_TEXTURES ->
  VDLUFACalculator._get_optimal_ph (Some t) "Standard crops" <= ph ->
  VDLUFACalculator._calculate_standard_crops ph (Some t) == 0.
Proof.
  intros Ht. cbn in Ht.
  repeat destruct Ht as [<- | Ht]; try contradiction;
    cbn -[Qle Qlt Qle_bool Qltb Qgtb Qmult Qplus]; intros Hph;
    qcases; try reflexivity; lra.
Qed.

(** ** The CEC formula and its inverse *)

Lemma k_factor_value (cec_soil fine_dry_soil nv : Q) :
  ~ nv == 0 ->
  CECCalculator.k_factor cec_soil fine_dry_soil nv =
  ret ((cec_soil * 150 / 3500) * fine_dry_soil / (nv * 10) / 0.5).
Proof.
  intros Hnv. unfold CECCalculator.k_factor, fdiv.
  destruct (nv * 10 =? 0) eqn:E.
  - apply Qeq_bool_true in E. exfalso. apply Hnv. lra.
  - reflexivity.
Qed.

Lemma k_factor_raises (cec_soil fine_dry_soil nv : Q) :
  nv == 0 ->
  CECCalculator.k_factor cec_soil fine_dry_soil nv = raise ZeroDivisionError.
Proof.
  intros Hnv. unfold CECCalculator.k_factor, fdiv.
  destruct (nv * 10 =? 0) eqn:E.
  - reflexivity.
  - apply Qeq_bool_false in E. exfalso. apply E. lra.
Qed.

(** Where the guards of the CEC inverse do hold: with a neutralizing value
    other than zero, a zero exchange capacity, fine-dry-soil factor or dose
    factor, or an amount of lime at or below zero, gives back the current
    pH. *)
Lemma cec_inverse_guarded (lime_kg_ha current_ph cec_soil fine_dry_soil nv dose : Q) :
  ~ nv == 0 ->
  lime_kg_ha <= 0 \/ cec_soil == 0 \/ fine_dry_soil == 0 \/ dose == 0 ->
  CECCalculator.reverse_calculate_ph lime_kg_ha current_ph cec_soil fine_dry_soil
    nv dose = ret current_ph.
Proof.
  intros Hnv Hzero. unfold CECCalculator.reverse_calculate_ph.
  qcase; [reflexivity |].
  rewrite k_factor_value by exact Hnv. rewrite bind_ret_l.
  qcase; [reflexivity |]. exfalso. apply Hcmp0.
  destruct Hzero as [H | [H | [H | H]]]; [lra | | |]; rewrite H; field; lra.
Qed.

(** C7: with a neutralizing value of zero and a positive amount of lime the
    CEC inverse raises [ZeroDivisionError], whatever the exchange capacity,
    the fine-dry-soil factor and the dose factor: the division by [nv * 10]
    comes before the guard on [K * dose], and nothing is logged or returned
    before it. *)
Theorem cec_inverse_raises_on_zero_nv
    (lime_kg_ha current_ph cec_soil fine_dry_soil nv dose : Q) :
  0 < lime_kg_ha -> nv == 0 ->
  raises (CECCalculator.reverse_calculate_ph lime_kg_ha current_ph cec_soil
            fine_dry_soil nv dose) ZeroDivisionError /\
  ~ returns (CECCalculator.reverse_calculate_ph lime_kg_ha current_ph cec_soil
               fine_dry_soil nv dose) current_ph.
Proof.
  intros Hlime Hnv.
  assert (Hraise : CECCalculator.reverse_calculate_ph lime_kg_ha current_ph
                     cec_soil fine_dry_soil nv dose = raise ZeroDivisionError).
  { unfold CECCalculator.reverse_calculate_ph. qcase; [lra |].
    now rewrite k_factor_raises. }
  rewrite Hraise. split; [reflexivity |]. intros H. exact H.
Qed.

Lemma cec_inverse_raises_on_zero_nv_witness :
  raises (CECCalculator.reverse_calculate_ph 100 6.0 10.0 1500 0 1.0)
         ZeroDivisionError.
Proof.
  apply (cec_inverse_raises_on_zero_nv 100 6.0 10.0 1500 0 1.0).
  - reflexivity.
  - reflexivity.
Defined.

(** The standard calculation, case by case. *)
Lemma _calculate_standard_at_target (current_ph target_ph cec_soil fine_dry_soil nv dose : Q) :
  target_ph <= current_ph ->
  CECCalculator._calculate_standard current_ph target_ph cec_soil fine_dry_soil nv dose =
  ([], Ok 0.0).
Proof.
  intros Hge. unfold CECCalculator._calculate_standard.
  qcase; [reflexivity | lra].
Qed.

Lemma _calculate_standard_below_target
    (current_ph target_ph cec_soil fine_dry_soil nv dose : Q) :
  current_ph < target_ph -> ~ nv == 0 ->
  CECCalculator._calculate_standard current_ph target_ph cec_soil fine_dry_soil nv dose =
  ([], Ok (Qmax 0.0
             (((cec_soil * 150 / 3500) * fine_dry_soil / (nv * 10) / 0.5)
              * ((target_ph - current_ph) * dose) * 1000))).
Proof.
  intros Hlt Hnv. unfold CECCalculator._calculate_standard.
  qcase; [lra |]. now rewrite k_factor_value.
Qed.

(** C4, as stated, fails: with a negative dose factor the formula is
    negative while the calculator returns 0; and with a neutralizing value
    of zero the calculator raises. *)
Lemma cec_forward_clamped_at_zero :
  5.8 < 6.5 /\
  spec_requirement 5.8 6.5 10.0 1500 53 (-1) < 0 /\
  returns (CECCalculator._calculate_standard 5.8 6.5 10.0 1500 53 (-1)) 0 /\
  ~ returns (CECCalculator._calculate_standard 5.8 6.5 10.0 1500 53 (-1))
            (spec_requirement 5.8 6.5 10.0 1500 53 (-1)) /\
  raises (CECCalculator._calculate_standard 5.8 6.5 10.0 1500 0 1.0)
         ZeroDivisionError.
Proof.
  split; [reflexivity |]. split; [reflexivity |]. split; [reflexivity |].
  split; [vm_compute; discriminate | reflexivity].
Qed.

(** C4 (amended): without saturation modification the improvement dose of
    the CEC calculator is its standard calculation; for a neutralizing value
    other than zero and a current pH below the target it is the formula of
    the specification clamped below at zero, hence the formula itself
    whenever that is not negative; it is 0 when the current pH is at or above
    the target; and scenario B gives 1698.1 kg/ha to one decimal. *)
Theorem cec_forward_requirement
    (current_ph target_ph cec_soil fine_dry_soil nv dose : Q)
    (s_cec_percentage modified_s_cec : option Q) :
  let std := CECCalculator._calculate_standard current_ph target_ph cec_soil
               fine_dry_soil nv dose in
  (s_cec_percentage = None \/ modified_s_cec = None ->
   CECCalculator.calculate_lime_requirement current_ph target_ph cec_soil
     fine_dry_soil nv dose s_cec_percentage modified_s_cec "pH Improvement" None = std) /\
  (target_ph <= current_ph -> returns std 0) /\
  (current_ph < target_ph -> ~ nv == 0 ->
   returns std
     (Qmax 0 (spec_requirement current_ph target_ph cec_soil fine_dry_soil nv dose))) /\
  (current_ph < target_ph -> ~ nv == 0 ->
   0 <= spec_requirement current_ph target_ph cec_soil fine_dry_soil nv dose ->
   returns std (spec_requirement current_ph target_ph cec_soil fine_dry_soil nv dose)) /\
  (exists v,
     returns (CECCalculator.calculate_lime_requirement 5.8 6.5 10.0 1500 53 1.0
                None None "pH Improvement" None) v /\
     1698.05 < v < 1698.15).
Proof.
  intros std.
  assert (Hformula :
            ~ nv == 0 ->
            ((cec_soil * 150 / 3500) * fine_dry_soil / (nv * 10) / 0.5)
            * ((target_ph - current_ph) * dose) * 1000
            == spec_requirement current_ph target_ph cec_soil fine_dry_soil nv dose).
  { intros Hnv. unfold spec_requirement, spec_K. field. lra. }
  split.
  { intros Hsat. unfold CECCalculator.calculate_lime_requirement. cbn.
    unfold CECCalculator.forward.
    destruct modified_s_cec, s_cec_percentage; try reflexivity.
    destruct Hsat; discriminate. }
  split.
  { intros Hge. subst std. rewrite _calculate_standard_at_target by exact Hge.
    reflexivity. }
  split.
  { intros Hlt Hnv. subst std.
    rewrite _calculate_standard_below_target by assumption.
    unfold returns. cbn [snd]. rewrite (Hformula Hnv).
    assert (Hz : 0.0 == 0) by reflexivity. now rewrite Hz. }
  split.
  { intros Hlt Hnv Hpos. subst std.
    rewrite _calculate_standard_below_target by assumption.
    unfold returns. cbn [snd]. rewrite (Hformula Hnv).
    apply Q.max_r. lra. }
  exists (157500000000000 # 92750000000). split.
  - vm_compute. reflexivity.
  - split; reflexivity.
Qed.

Lemma cec_forward_requirement_witness :
  returns (CECCalculator._calculate_standard 5.8 6.5 10.0 1500 53 1.0)
          (spec_requirement 5.8 6.5 10.0 1500 53 1.0) /\
  returns (CECCalculator._calculate_standard 6.8 6.5 10.0 1500 53 1.0) 0.
Proof.
  split.
  - destruct (cec_forward_requirement 5.8 6.5 10.0 1500 53 1.0 None None)
      as (_ & _ & _ & H & _).
    apply H.
    + reflexivity.
    + lra.
    + vm_compute; discriminate.
  - destruct (cec_forward_requirement 6.8 6.5 10.0 1500 53 1.0 None None)
      as (_ & H & _).
    apply H. vm_compute; discriminate.
Defined.

(** C5, as stated, fails: with [K * dose] negative (not zero) the forward
    dose is clamped to 0 and the inverse hands back the current pH, not the
    target. *)
Lemma cec_round_trip_fails_for_negative_dose :
  5.8 < 6.5 /\
  ~ spec_K 10.0 1500 53 * (-1) == 0 /\
  exists lime,
    snd (CECCalculator._calculate_standard 5.8 6.5 10.0 1500 53 (-1)) = Ok lime /\
    returns (CECCalculator.reverse_calculate_ph lime 5.8 10.0 1500 53 (-1)) 5.8 /\
    ~ returns (CECCalculator.reverse_calculate_ph lime 5.8 10.0 1500 53 (-1)) 6.5.
Proof.
  split; [reflexivity |]. split; [vm_compute; discriminate |].
  eexists. split; [reflexivity |]. split; [reflexivity |].
  vm_compute. discriminate.
Qed.

(** C5 (amended): for a current pH below the target, a neutralizing value
    other than zero and [K * dose] positive, the inverse applied to the
    forward dose, with the same exchange capacity, fine-dry-soil factor,
    neutralizing value and dose factor, returns the target pH. *)
Theorem cec_round_trip (current_ph target_ph cec_soil fine_dry_soil nv dose : Q) :
  current_ph < target_ph -> ~ nv == 0 ->
  0 < spec_K cec_soil fine_dry_soil nv * dose ->
  exists lime,
    snd (CECCalculator._calculate_standard current_ph target_ph cec_soil
           fine_dry_soil nv dose) = Ok lime /\
    returns (CECCalculator.reverse_calculate_ph lime current_ph cec_soil
               fine_dry_soil nv dose) target_ph.
Proof.
  intros Hlt Hnv HK. unfold spec_K in HK.
  rewrite _calculate_standard_below_target by assumption.
  eexists. split; [reflexivity |].
  set (k := (cec_soil * 150 / 3500) * fine_dry_soil / (nv * 10) / 0.5) in *.
  set (lime := k * ((target_ph - current_ph) * dose) * 1000).
  assert (Hlime : 0 < lime).
  { unfold lime. nra. }
  assert (Hmax : Qmax 0.0 lime == lime).
  { apply Q.max_r. lra. }
  unfold CECCalculator.reverse_calculate_ph.
  destruct (Qmax 0.0 lime <=? 0) eqn:E1.
  { apply Qle_bool_true in E1. rewrite Hmax in E1. lra. }
  rewrite k_factor_value by assumption. fold k.
  cbn [bind ret app].
  destruct (k * 1000 * dose =? 0) eqn:E2.
  { apply Qeq_bool_true in E2. nra. }
  unfold fdiv. rewrite E2. unfold returns. cbn.
  rewrite Hmax. unfold lime. field.
  split; intros Hz; rewrite Hz in HK; lra.
Qed.

Lemma cec_round_trip_witness :
  exists lime,
    snd (CECCalculator._calculate_standard 5.8 6.5 10.0 1500 53 1.0) = Ok lime /\
    returns (CECCalculator.reverse_calculate_ph lime 5.8 10.0 1500 53 1.0) 6.5.
Proof.
  apply (cec_round_trip 5.8 6.5 10.0 1500 53 1.0).
  - reflexivity.
  - lra.
  - reflexivity.
Defined.

(** ** Maintenance mode *)

Lemma vdlufa_maintenance_at_optimal (current_ph : Q) (soil_texture : option string)
    (crop_type lime_type : string) (caco3_loss_kg_ha : option Q) (nv : Q) :
  VDLUFACalculator._get_optimal_ph
    (VDLUFACalculator.map_soil_texture soil_texture) crop_type <= current_ph ->
  snd (VDLUFACalculator.calculate_lime_requirement current_ph soil_texture crop_type
         lime_type "pH Maintenance" caco3_loss_kg_ha nv) = Ok 0.0.
Proof.
  intros Hge. unfold VDLUFACalculator.calculate_lime_requirement.
  cbn [String.eqb Ascii.eqb Bool.eqb]. qcase; [reflexivity | lra].
Qed.

Lemma vdlufa_maintenance_below_optimal (current_ph : Q) (soil_texture : option string)
    (crop_type lime_type : string) (caco3_loss_kg_ha : option Q) (nv : Q) :
  current_ph <
  VDLUFACalculator._get_optimal_ph
    (VDLUFACalculator.map_soil_texture soil_texture) crop_type ->
  VDLUFACalculator.calculate_lime_requirement current_ph soil_texture crop_type
    lime_type "pH Maintenance" caco3_loss_kg_ha nv =
  match caco3_loss_kg_ha with
  | Some loss =>
      r <- fdiv 100 nv ;;
      logger_info "VDLUFA pH Maintenance: CaCO3 loss {caco3_loss_kg_ha} kg/ha -> CaO {cao_loss_kg_ha:.1f} kg/ha -> Product {lime_requirement:.1f} kg/ha (NV={nv}%)" ;;;
      ret (loss / 1.785 * r)
  | None =>
      ([(WARNING, "pH Maintenance: No rainfall data available - returning 0")], Ok 0.0)
  end.
Proof.
  intros Hlt. unfold VDLUFACalculator.calculate_lime_requirement.
  cbn [String.eqb Ascii.eqb Bool.eqb]. qcase; [lra |].
  destruct caco3_loss_kg_ha; [| reflexivity].
  change (dict_index VDLUFACalculator.LIME_CONVERSION_FACTORS "CaCO3") with (ret 1.785).
  now rewrite bind_ret_l.
Qed.

Lemma cec_maintenance_at_target
    (current_ph target_ph cec_soil fine_dry_soil nv dose : Q)
    (s_cec_percentage modified_s_cec caco3_loss_kg_ha : option Q) :
  target_ph <= current_ph ->
  snd (CECCalculator.calculate_lime_requirement current_ph target_ph cec_soil
         fine_dry_soil nv dose s_cec_percentage modified_s_cec "pH Maintenance"
         caco3_loss_kg_ha) = Ok 0.0.
Proof.
  intros Hge. unfold CECCalculator.calculate_lime_requirement.
  cbn [String.eqb Ascii.eqb Bool.eqb]. qcase; [reflexivity | lra].
Qed.

Lemma cec_maintenance_below_target
    (current_ph target_ph cec_soil fine_dry_soil nv dose : Q)
    (s_cec_percentage modified_s_cec caco3_loss_kg_ha : option Q) :
  current_ph < target_ph ->
  CECCalculator.calculate_lime_requirement current_ph target_ph cec_soil
    fine_dry_soil nv dose s_cec_percentage modified_s_cec "pH Maintenance"
    caco3_loss_kg_ha =
  match caco3_loss_kg_ha with
  | Some loss =>
      r <- fdiv 100 nv ;;
      logger_info "CEC pH Maintenance: CaCO3 loss {caco3_loss_kg_ha} kg/ha -> CaO {cao_loss_kg_ha:.1f} kg/ha -> Product {lime_requirement:.1f} kg/ha (NV={nv}%)" ;;;
      ret (loss / 1.785 * r)
  | None =>
      ([(WARNING, "CEC pH Maintenance: No rainfall data available - returning 0")], Ok 0.0)
  end.
Proof.
  intros Hlt. unfold CECCalculator.calculate_lime_requirement.
  cbn [String.eqb Ascii.eqb Bool.eqb]. qcase; [lra |].
  destruct caco3_loss_kg_ha; reflexivity.
Qed.

(** C2: in [pH Maintenance] mode both calculators return 0 when the current
    pH is at or above the reference pH, whatever the leaching data; below
    it, with a CaCO3 loss and a neutralizing value other than zero, they
    return [(loss / 1.785) * (100 / nv)]; and without a loss they return 0
    and log a warning.  The forward curve or formula takes no part. *)
Theorem maintenance_mode_dose
    (current_ph : Q) (soil_texture : option string) (crop_type lime_type : string)
    (target_ph cec_soil fine_dry_soil dose : Q)
    (s_cec_percentage modified_s_cec caco3_loss_kg_ha : option Q) (nv : Q) :
  let optimal_ph :=
    VDLUFACalculator._get_optimal_ph
      (VDLUFACalculator.map_soil_texture soil_texture) crop_type in
  let v := VDLUFACalculator.calculate_lime_requirement current_ph soil_texture
             crop_type lime_type "pH Maintenance" caco3_loss_kg_ha nv in
  let c := CECCalculator.calculate_lime_requirement current_ph target_ph cec_soil
             fine_dry_soil nv dose s_cec_percentage modified_s_cec "pH Maintenance"
             caco3_loss_kg_ha in
  (optimal_ph <= current_ph -> returns v 0) /\
  (target_ph <= current_ph -> returns c 0) /\
  (forall loss, caco3_loss_kg_ha = Some loss -> ~ nv == 0 ->
     (current_ph < optimal_ph -> returns v (spec_maintenance_dose loss nv)) /\
     (current_ph < target_ph -> returns c (spec_maintenance_dose loss nv))) /\
  (caco3_loss_kg_ha = None ->
     (current_ph < optimal_ph -> returns v 0 /\ warns v) /\
     (current_ph < target_ph -> returns c 0 /\ warns c)).
Proof.
  intros optimal_ph v c. subst optimal_ph v c. unfold returns.
  split. { intros H. now rewrite vdlufa_maintenance_at_optimal. }
  split. { intros H. now rewrite cec_maintenance_at_target. }
  split.
  - intros loss -> Hnv. unfold spec_maintenance_dose. split; intros Hlt.
    + rewrite vdlufa_maintenance_below_optimal by exact Hlt.
      rewrite fdiv_value by exact Hnv. reflexivity.
    + rewrite cec_maintenance_below_target by exact Hlt.
      rewrite fdiv_value by exact Hnv. reflexivity.
  - intros ->. split; intros Hlt.
    + rewrite vdlufa_maintenance_below_optimal by exact Hlt.
      split; [reflexivity |]. eexists. left. reflexivity.
    + rewrite cec_maintenance_below_target by exact Hlt.
      split; [reflexivity |]. eexists. left. reflexivity.
Qed.

Lemma maintenance_mode_dose_witness :
  returns (VDLUFACalculator.calculate_lime_requirement 5.8 (Some "Sand")
             "Standard crops" "CaO" "pH Maintenance" (Some 130) 53)
          (spec_maintenance_dose 130 53) /\
  returns (CECCalculator.calculate_lime_requirement 5.8 6.5 10.0 1500 53 1.0
             None None "pH Maintenance" (Some 130))
          (spec_maintenance_dose 130 53) /\
  returns (CECCalculator.calculate_lime_requirement 6.8 6.5 10.0 1500 53 1.0
             None None "pH Maintenance" (Some 130)) 0 /\
  warns (CECCalculator.calculate_lime_requirement 5.8 6.5 10.0 1500 53 1.0
           None None "pH Maintenance" None).
Proof.
  destruct (maintenance_mode_dose 5.8 (Some "Sand") "Standard crops" "CaO"
              6.5 10.0 1500 1.0 None None (Some 130) 53) as (_ & _ & Hloss & _).
  destruct (Hloss 130 eq_refl) as [Hv Hc]; [lra |].
  destruct (maintenance_mode_dose 6.8 (Some "Sand") "Standard crops" "CaO"
              6.5 10.0 1500 1.0 None None (Some 130) 53) as (_ & Hzero & _).
  destruct (maintenance_mode_dose 5.8 (Some "Sand") "Standard crops" "CaO"
              6.5 10.0 1500 1.0 None None None 53) as (_ & _ & _ & Hnone).
  destruct (Hnone eq_refl) as [_ Hw].
  split; [apply Hv; reflexivity |].
  split; [apply Hc; reflexivity |].
  split; [apply Hzero; vm_compute; discriminate |].
  apply Hw. reflexivity.
Defined.

(** ** The cap on the application rate *)

Lemma cap_and_report_capped (liming_mode applied_mode : string)
    (current_ph reference_ph nominal max_rate : Q) (inverse : Q -> M Q) :
  (liming_mode <> "pH Maintenance" -> max_rate < nominal ->
   exists t, snd (inverse max_rate) = Ok t) ->
  exists r,
    snd (LimingPrescription.cap_and_report liming_mode applied_mode current_ph
           reference_ph nominal (Some max_rate) inverse) = Ok r /\
    LimingPrescription.mode_of r = applied_mode /\
    LimingPrescription.capped_as_requested r liming_mode current_ph reference_ph
      nominal max_rate inverse.
Proof.
  intros Hinv. unfold LimingPrescription.cap_and_report,
    LimingPrescription.capped_as_requested.
  destruct (String.eqb liming_mode "pH Maintenance") eqn:Emode.
  - apply String.eqb_eq in Emode. cbn [negb].
    qcase; eexists; (split; [reflexivity |]); (split; [reflexivity |]); cbn;
      repeat split; intros; try (exfalso; lra); try reflexivity; congruence.
  - apply String.eqb_neq in Emode. cbn [negb].
    qcase.
    + eexists. split; [reflexivity |]. split; [reflexivity |]. cbn.
      repeat split; intros; try (exfalso; lra); try reflexivity; congruence.
    + destruct (Hinv Emode Hcmp) as [t Ht].
      rewrite (snd_bind_Ok _ _ t Ht). cbn.
      eexists. split; [reflexivity |]. split; [reflexivity |]. cbn.
      repeat split; intros; try (exfalso; lra); try reflexivity; try congruence.
      exists t. now split.
Qed.

Lemma vdlufa_improvement_dose (current_ph : Q) (soil_texture : option string)
    (crop_type lime_type : string) (caco3_loss_kg_ha : option Q) (nv : Q) :
  VDLUFACalculator.calculate_lime_requirement current_ph soil_texture crop_type
    lime_type "pH Improvement" caco3_loss_kg_ha nv =
  ret (VDLUFACalculator.to_lime_type
         (VDLUFACalculator.forward_curve crop_type current_ph
            (VDLUFACalculator.map_soil_texture soil_texture)) lime_type).
Proof. reflexivity. Qed.

(** The inverse of the empirical method never raises when the current pH
    is known. *)
Lemma vdlufa_inverse_total (lime_kg_ha : Q) (soil_texture : option string)
    (crop_type lime_type : string) (current_ph : Q) :
  exists t,
    snd (VDLUFACalculator.reverse_calculate_ph lime_kg_ha soil_texture crop_type
           lime_type (Some current_ph)) = Ok t.
Proof.
  unfold VDLUFACalculator.reverse_calculate_ph.
  qcase; [eexists; reflexivity |].
  rewrite vdlufa_improvement_dose, !bind_ret_l.
  qcase; [eexists; reflexivity |].
  rewrite fdiv_value by lra. eexists; reflexivity.
Qed.

(** The inverse of the empirical method gives back the current pH when no
    lime is applied or none is needed to reach the optimum. *)
Lemma vdlufa_inverse_guarded (lime_kg_ha : Q) (soil_texture : option string)
    (crop_type lime_type : string) (current_ph lime_to_optimal : Q) :
  snd (VDLUFACalculator.calculate_lime_requirement current_ph soil_texture
         crop_type lime_type "pH Improvement" None 100.0) = Ok lime_to_optimal ->
  lime_kg_ha <= 0 \/ lime_to_optimal <= 0 ->
  VDLUFACalculator.reverse_calculate_ph lime_kg_ha soil_texture crop_type
    lime_type (Some current_ph) = ret current_ph.
Proof.
  rewrite vdlufa_improvement_dose. cbn [snd ret]. intros Hdose Hzero.
  injection Hdose as Hdose.
  unfold VDLUFACalculator.reverse_calculate_ph.
  qcase; [reflexivity |].
  rewrite vdlufa_improvement_dose, !bind_ret_l, Hdose.
  qcase; [reflexivity |]. exfalso. destruct Hzero; lra.
Qed.

(** With a neutralizing value of zero the forward calculations of the CEC
    method either raise or return 0. *)
Lemma _calculate_standard_zero_nv
    (current_ph target_ph cec_soil fine_dry_soil nv dose n : Q) :
  nv == 0 ->
  snd (CECCalculator._calculate_standard current_ph target_ph cec_soil
         fine_dry_soil nv dose) = Ok n ->
  n == 0.
Proof.
  intros Hnv. unfold CECCalculator._calculate_standard. qcase.
  - cbn. intros H. injection H as <-. reflexivity.
  - rewrite k_factor_raises by exact Hnv. discriminate.
Qed.

Lemma forward_zero_nv (current_ph target_ph cec_soil fine_dry_soil nv dose n : Q)
    (s_cec_percentage modified_s_cec : option Q) :
  nv == 0 ->
  snd (CECCalculator.forward current_ph target_ph cec_soil fine_dry_soil nv dose
         s_cec_percentage modified_s_cec) = Ok n ->
  n == 0.
Proof.
  intros Hnv. unfold CECCalculator.forward.
  destruct modified_s_cec as [m |], s_cec_percentage as [s |];
    try apply (_calculate_standard_zero_nv _ _ _ _ _ _ _ Hnv).
  unfold CECCalculator._calculate_with_modified_s_cec. qcase.
  - intros H. apply bind_Ok_inv in H. destruct H as (q1 & H1 & H).
    apply bind_Ok_inv in H. destruct H as (q2 & H2 & H).
    cbn in H. injection H as <-.
    apply (_calculate_standard_zero_nv _ _ _ _ _ _ _ Hnv) in H1, H2.
    rewrite H1, H2. reflexivity.
  - cbn. intros H. injection H as <-. reflexivity.
Qed.

Lemma cec_dose_zero_nv (current_ph target_ph cec_soil fine_dry_soil nv dose n : Q)
    (s_cec_percentage modified_s_cec : option Q) (liming_mode : string)
    (caco3_loss_kg_ha : option Q) :
  nv == 0 -> liming_mode <> "pH Maintenance" ->
  snd (CECCalculator.calculate_lime_requirement current_ph target_ph cec_soil
         fine_dry_soil nv dose s_cec_percentage modified_s_cec liming_mode
         caco3_loss_kg_ha) = Ok n ->
  n == 0.
Proof.
  intros Hnv Hmode. unfold CECCalculator.calculate_lime_requirement.
  destruct (String.eqb liming_mode "pH Maintenance") eqn:E.
  { apply String.eqb_eq in E. contradiction. }
  destruct (String.eqb liming_mode "Automatic");
    [| apply (forward_zero_nv _ _ _ _ _ _ _ _ _ Hnv)].
  qcase; [| cbn; intros H; injection H as <-; reflexivity].
  qcase; [| apply (forward_zero_nv _ _ _ _ _ _ _ _ _ Hnv)].
  destruct caco3_loss_kg_ha; [| apply (forward_zero_nv _ _ _ _ _ _ _ _ _ Hnv)].
  rewrite fdiv_raises by exact Hnv. discriminate.
Qed.

(** Whenever the CEC dose was computed and exceeds the ceiling, the
    inverse at the ceiling returns. *)
Lemma cec_inverse_total (current_ph target_ph cec_soil fine_dry_soil nv dose : Q)
    (s_cec_percentage modified_s_cec : option Q) (liming_mode : string)
    (caco3_loss_kg_ha : option Q) (nominal max_rate : Q) :
  snd (CECCalculator.calculate_lime_requirement current_ph target_ph cec_soil
         fine_dry_soil nv dose s_cec_percentage modified_s_cec liming_mode
         caco3_loss_kg_ha) = Ok nominal ->
  liming_mode <> "pH Maintenance" -> max_rate < nominal ->
  exists t,
    snd (CECCalculator.reverse_calculate_ph max_rate current_ph cec_soil
           fine_dry_soil nv dose) = Ok t.
Proof.
  intros Hnom Hmode Hcap. unfold CECCalculator.reverse_calculate_ph.
  qcase; [eexists; reflexivity |].
  destruct (Qeq_dec nv 0) as [Hnv | Hnv].
  - apply (cec_dose_zero_nv _ _ _ _ _ _ _ _ _ _ _ Hnv Hmode) in Hnom. lra.
  - rewrite k_factor_value by exact Hnv. rewrite bind_ret_l.
    qcase; [eexists; reflexivity |].
    rewrite fdiv_value by exact Hcmp0. eexists; reflexivity.
Qed.

(** C3, as stated, fails: in [Automatic] mode a sample within 0.1 below the
    target is labelled [Maintenance], yet its reported pH is not the current
    pH: it is the inverse at the ceiling when the dose is capped (first
    sample) and the target pH when it is not (second sample). *)
Lemma automatic_maintenance_reports_another_ph :
  (exists r t,
     snd (LimingPrescription._calculate_cec_prescription []
            {| LimingPrescription.ph_value := Some 6.45;
               LimingPrescription.soil_texture := None;
               LimingPrescription.caco3_loss_kg_ha := Some 130 |}
            (LimingPrescription.cec_request 6.5 1500 53 1.0 10.0 "Automatic"
               (Some 100) None None)) = Ok r /\
     LimingPrescription.mode_of r = "Maintenance" /\
     LimingPrescription.capped_of r = true /\
     LimingPrescription.target_of r = Some t /\ ~ t == 6.45) /\
  (exists r,
     snd (LimingPrescription._calculate_vdlufa_prescription
            {| LimingPrescription.ph_value := Some 5.85;
               LimingPrescription.soil_texture := Some "Sand";
               LimingPrescription.caco3_loss_kg_ha := Some 130 |}
            (LimingPrescription.vdlufa_request "Standard crops" "CaO" "Automatic"
               "Sandiger Schl Lehm" (Some 3000))) = Ok r /\
     LimingPrescription.mode_of r = "Maintenance" /\
     LimingPrescription.capped_of r = false /\
     LimingPrescription.target_of r = Some 5.9).
Proof.
  split.
  - eexists. eexists. split; [vm_compute; reflexivity |].
    split; [reflexivity |]. split; [reflexivity |]. split; [reflexivity |].
    vm_compute. discriminate.
  - eexists. split; [vm_compute; reflexivity |]. repeat split.
Qed.

(** C3 (amended): for a sample with a pH and parameters with a maximum
    application rate, on both paths: if the nominal dose exceeds the rate the
    reported dose is the rate and the flag is set, otherwise the reported dose
    is the nominal dose and the flag is clear; when the requested mode is
    [pH Maintenance] the reported pH is the current pH, capped or not; for
    any other requested mode a capped dose is reported with the pH that the
    calculator's inverse returns at the rate. *)
Theorem application_rate_cap (SOIL_CEC_VALUES : list (string * Q))
    (s : LimingPrescription.sample) (p : LimingPrescription.params)
    (current_ph max_rate : Q) :
  LimingPrescription.ph_value s = Some current_ph ->
  LimingPrescription.max_application_rate p = Some max_rate ->
  (forall nominal,
     snd (LimingPrescription.vdlufa_nominal s p current_ph) = Ok nominal ->
     exists r,
       snd (LimingPrescription._calculate_vdlufa_prescription s p) = Ok r /\
       LimingPrescription.capped_as_requested r (LimingPrescription.vdlufa_mode p)
         current_ph (LimingPrescription.vdlufa_optimal_ph s p) nominal max_rate
         (LimingPrescription.vdlufa_inverse s p current_ph)) /\
  (forall fine_dry_soil nv nominal,
     LimingPrescription.fine_dry_soil p = Some fine_dry_soil ->
     LimingPrescription.nv p = Some nv ->
     snd (LimingPrescription.cec_nominal SOIL_CEC_VALUES s p current_ph
            fine_dry_soil nv) = Ok nominal ->
     exists r,
       snd (LimingPrescription._calculate_cec_prescription SOIL_CEC_VALUES s p) = Ok r /\
       LimingPrescription.capped_as_requested r (LimingPrescription.cec_mode p)
         current_ph (LimingPrescription.cec_target_ph p) nominal max_rate
         (LimingPrescription.cec_inverse SOIL_CEC_VALUES s p current_ph
            fine_dry_soil nv)).
Proof.
  intros Hph Hmax. split.
  - intros nominal Hnom.
    unfold LimingPrescription._calculate_vdlufa_prescription.
    rewrite Hph, Hmax. rewrite (snd_bind_Ok _ _ nominal Hnom).
    edestruct cap_and_report_capped as (r & Hr & _ & Hcap);
      [| exists r; split; [exact Hr | exact Hcap]].
    intros _ _. apply vdlufa_inverse_total.
  - intros fine_dry_soil nv nominal Hfds Hnv Hnom.
    unfold LimingPrescription._calculate_cec_prescription.
    rewrite Hph, Hfds, Hnv, Hmax. rewrite (snd_bind_Ok _ _ nominal Hnom).
    edestruct cap_and_report_capped as (r & Hr & _ & Hcap);
      [| exists r; split; [exact Hr | exact Hcap]].
    intros Hmode Hlt. unfold LimingPrescription.cec_inverse.
    unfold LimingPrescription.cec_nominal in Hnom.
    eapply cec_inverse_total; eassumption.
Qed.

Lemma application_rate_cap_witness :
  exists r,
    snd (LimingPrescription._calculate_vdlufa_prescription
           {| LimingPrescription.ph_value := Some 4.5;
              LimingPrescription.soil_texture := Some "Clay";
              LimingPrescription.caco3_loss_kg_ha := None |}
           (LimingPrescription.vdlufa_request "Standard crops" "CaO"
              "pH Improvement" "Sandiger Schl Lehm" (Some 1680.7))) = Ok r /\
    LimingPrescription.lime_of r = 1680.7 /\
    LimingPrescription.capped_of r = true.
Proof.
  destruct (application_rate_cap []
              {| LimingPrescription.ph_value := Some 4.5;
                 LimingPrescription.soil_texture := Some "Clay";
                 LimingPrescription.caco3_loss_kg_ha := None |}
              (LimingPrescription.vdlufa_request "Standard crops" "CaO"
                 "pH Improvement" "Sandiger Schl Lehm" (Some 1680.7))
              4.5 1680.7 eq_refl eq_refl) as [Hv _].
  destruct (Hv _ eq_refl) as (r & Hr & Hcap & _).
  exists r. split; [exact Hr |]. apply Hcap. reflexivity.
Defined.

(** ** Automatic mode *)

(** C1: on the empirical path a sample in [Automatic] mode whose pH lies
    within 0.1 below the optimal pH is labelled [Maintenance], but its dose
    is the improvement dose of the forward curve, whatever the leaching loss
    and the neutralizing value (59.58 kg/ha of CaO for sand at pH 5.85); at
    the optimal pH itself the label is [Maintenance] and the dose is 0, loss
    or no loss.  The CEC path, on a sample placed alike, returns the dose
    derived from the loss. *)
Theorem vdlufa_automatic_maintenance_band_uses_forward_curve
    (caco3_loss : option Q) (nv : option Q) :
  (forall current_ph soil_texture crop_type lime_type nv',
     VDLUFACalculator.calculate_lime_requirement current_ph soil_texture crop_type
       lime_type "Automatic" caco3_loss nv' =
     if current_ph >=?
        VDLUFACalculator._get_optimal_ph
          (VDLUFACalculator.map_soil_texture soil_texture) crop_type
     then ret 0.0
     else VDLUFACalculator.calculate_lime_requirement current_ph soil_texture
            crop_type lime_type "pH Improvement" None 100) /\
  (exists r,
     snd (LimingPrescription._calculate_vdlufa_prescription
            {| LimingPrescription.ph_value := Some 5.85;
               LimingPrescription.soil_texture := Some "Sand";
               LimingPrescription.caco3_loss_kg_ha := caco3_loss |}
            {| LimingPrescription.crop_type := Some "Standard crops";
               LimingPrescription.lime_type := Some "CaO";
               LimingPrescription.default_soil_texture := None;
               LimingPrescription.liming_mode := Some "Automatic";
               LimingPrescription.max_application_rate := None;
               LimingPrescription.nv := nv;
               LimingPrescription.target_ph := None;
               LimingPrescription.cec_soil := None;
               LimingPrescription.fine_dry_soil := None;
               LimingPrescription.dose := None;
               LimingPrescription.s_cec_percentage := None;
               LimingPrescription.modified_s_cec := None |}) = Ok r /\
     LimingPrescription.mode_of r = "Maintenance" /\
     LimingPrescription.lime_of r == 59.58 /\
     returns (VDLUFACalculator.calculate_lime_requirement 5.85 (Some "Sand")
                "Standard crops" "CaO" "pH Improvement" None 100)
             (LimingPrescription.lime_of r)) /\
  (exists r,
     snd (LimingPrescription._calculate_vdlufa_prescription
            {| LimingPrescription.ph_value := Some 5.9;
               LimingPrescription.soil_texture := Some "Sand";
               LimingPrescription.caco3_loss_kg_ha := caco3_loss |}
            {| LimingPrescription.crop_type := Some "Standard crops";
               LimingPrescription.lime_type := Some "CaO";
               LimingPrescription.default_soil_texture := None;
               LimingPrescription.liming_mode := Some "Automatic";
               LimingPrescription.max_application_rate := None;
               LimingPrescription.nv := nv;
               LimingPrescription.target_ph := None;
               LimingPrescription.cec_soil := None;
               LimingPrescription.fine_dry_soil := None;
               LimingPrescription.dose := None;
               LimingPrescription.s_cec_percentage := None;
               LimingPrescription.modified_s_cec := None |}) = Ok r /\
     LimingPrescription.mode_of r = "Maintenance" /\
     LimingPrescription.lime_of r == 0) /\
  (exists r,
     snd (LimingPrescription._calculate_cec_prescription []
            {| LimingPrescription.ph_value := Some 6.45;
               LimingPrescription.soil_texture := None;
               LimingPrescription.caco3_loss_kg_ha := Some 130 |}
            (LimingPrescription.cec_request 6.5 1500 53 1.0 10.0 "Automatic"
               None None None)) = Ok r /\
     LimingPrescription.mode_of r = "Maintenance" /\
     LimingPrescription.lime_of r == 130 * (100 / 53)).
Proof.
  split; [| split; [| split]].
  - intros current_ph soil_texture crop_type lime_type nv'.
    unfold VDLUFACalculator.calculate_lime_requirement.
    cbn [String.eqb Ascii.eqb Bool.eqb].
    destruct (current_ph >=? _); reflexivity.
  - eexists. split; [reflexivity |]. repeat split.
  - eexists. split; [reflexivity |]. repeat split.
  - eexists. split; [vm_compute; reflexivity |]. repeat split.
Qed.

(** ** The bicarbonate factor *)

Section Bicarbonate.

Import RainfallLookup.
Local Open Scope R_scope.

Lemma Rmax_dist (c u v : R) : Rabs (Rmax c u - Rmax c v) <= Rabs (u - v).
Proof.
  unfold Rmax. destruct (Rle_dec c u), (Rle_dec c v);
    unfold Rabs; repeat destruct Rcase_abs; Lra.lra.
Qed.

Lemma Rmin_dist (c u v : R) : Rabs (Rmin c u - Rmin c v) <= Rabs (u - v).
Proof.
  unfold Rmin. destruct (Rle_dec c u), (Rle_dec c v);
    unfold Rabs; repeat destruct Rcase_abs; Lra.lra.
Qed.

(** A clamp keeps continuity: it never moves two values apart. *)
Lemma continuity_pt_nonexpansive (g f : R -> R) (x : R) :
  (forall u v, Rabs (g u - g v) <= Rabs (u - v)) ->
  continuity_pt f x -> continuity_pt (fun t => g (f t)) x.
Proof.
  intros Hg Hf eps Heps. destruct (Hf eps Heps) as (delta & Hdelta & Hclose).
  exists delta. split; [exact Hdelta |].
  intros y Hy. pose proof (Hclose y Hy) as Hfy.
  cbn in *. unfold R_dist in *.
  eapply Rle_lt_trans; [apply Hg | exact Hfy].
Qed.

Lemma power_law_continuous (ph : R) :
  0 < ph -> continuity_pt (fun t => 0.002304 * Rpower t 5.792337) ph.
Proof.
  intros Hph.
  apply (continuity_pt_scal (fun t => Rpower t 5.792337) 0.002304 ph).
  apply derivable_continuous_pt.
  exists (5.792337 * Rpower ph (5.792337 - 1)).
  now apply derivable_pt_lim_power.
Qed.

Lemma Rmax_mono (c u v : R) : u <= v -> Rmax c u <= Rmax c v.
Proof. intros H. unfold Rmax. destruct (Rle_dec c u), (Rle_dec c v); Lra.lra. Qed.

Lemma Rmin_mono (c u v : R) : u <= v -> Rmin c u <= Rmin c v.
Proof. intros H. unfold Rmin. destruct (Rle_dec c u), (Rle_dec c v); Lra.lra. Qed.

Lemma get_bicarbonate_factor_positive (ph : R) :
  0 < ph -> get_bicarbonate_factor ph = Ok (spec_bicarbonate ph).
Proof.
  intros Hph. unfold get_bicarbonate_factor, float_pow, spec_bicarbonate.
  destruct (Rlt_dec ph 0) as [Hneg | _]; [Lra.lra |].
  destruct (Req_dec_T ph 0) as [Hz | _]; [Lra.lra |].
  f_equal. f_equal; [Lra.lra |]. f_equal. Lra.lra.
Qed.

Lemma get_bicarbonate_factor_low (ph : R) :
  0 < ph <= 2 -> get_bicarbonate_factor ph = Ok 5.
Proof.
  intros [Hpos Hle]. rewrite get_bicarbonate_factor_positive by exact Hpos.
  f_equal. unfold spec_bicarbonate.
  assert (Hpow : Rpower ph 5.792337 <= 64).
  { apply Rle_trans with (Rpower 2 5.792337).
    - apply Rle_Rpower_l; Lra.lra.
    - apply Rle_trans with (Rpower 2 (INR 6)).
      + apply Rle_Rpower; [Lra.lra |]. cbn. Lra.lra.
      + rewrite Rpower_pow by Lra.lra. cbn. Lra.lra. }
  unfold Rmax, Rmin.
  destruct (Rle_dec 500 (0.002304 * Rpower ph 5.792337)); [Lra.lra |].
  destruct (Rle_dec 5 (0.002304 * Rpower ph 5.792337)); Lra.lra.
Qed.

(** C9, as stated, fails: the clamp makes the factor constant where the
    power law leaves [[5, 500]] (pH 1 and pH 2 both give 5), so it is not
    strictly increasing; and for a negative pH the power is a complex number
    and the function raises. *)
Lemma bicarbonate_factor_not_strictly_increasing :
  (1 < 2)%R /\
  RainfallLookup.get_bicarbonate_factor 1 = Ok 5%R /\
  RainfallLookup.get_bicarbonate_factor 2 = Ok 5%R /\
  RainfallLookup.get_bicarbonate_factor (-1) = Raise TypeError.
Proof.
  split; [Lra.lra |].
  split; [apply get_bicarbonate_factor_low; Lra.lra |].
  split; [apply get_bicarbonate_factor_low; Lra.lra |].
  unfold RainfallLookup.get_bicarbonate_factor, RainfallLookup.float_pow.
  destruct (Rlt_dec (-1) 0) as [_ | H]; [reflexivity | exfalso; Lra.lra].
Qed.

(** C9 (amended): for every positive pH the bicarbonate factor is the power
    law [a * pH^b] ([a = 0.002304], [b = 5.792337]) clamped to [[5, 500]]
    (at pH 0 it is 5); as a function of pH it is continuous at every positive
    pH, hence without a jump at 5.0, 5.5, 6.0, 6.5, 7.0 or 7.5, and
    non-decreasing; it is strictly increasing between two pH values at which
    the power law itself lies within [[5, 500]]. *)
Theorem bicarbonate_factor_clamped_power_law :
  (forall ph : R, (0 < ph)%R ->
     RainfallLookup.get_bicarbonate_factor ph = Ok (spec_bicarbonate ph)) /\
  RainfallLookup.get_bicarbonate_factor 0 = Ok 5%R /\
  (forall ph : R, (5 <= spec_bicarbonate ph <= 500)%R) /\
  (forall ph : R, (0 < ph)%R -> continuity_pt spec_bicarbonate ph) /\
  (forall x y : R, (0 < x)%R -> (x <= y)%R ->
     (spec_bicarbonate x <= spec_bicarbonate y)%R) /\
  (forall x y : R, (0 < x < y)%R ->
     (5 <= 0.002304 * Rpower x 5.792337)%R ->
     (0.002304 * Rpower y 5.792337 <= 500)%R ->
     (spec_bicarbonate x < spec_bicarbonate y)%R).
Proof.
  split; [exact get_bicarbonate_factor_positive |].
  split.
  { unfold RainfallLookup.get_bicarbonate_factor, RainfallLookup.float_pow.
    destruct (Rlt_dec 0 0) as [H | _]; [exfalso; Lra.lra |].
    destruct (Req_dec_T 0 0) as [_ | H]; [| exfalso; Lra.lra].
    f_equal. unfold Rmax, Rmin.
    destruct (Rle_dec 500.0 (0.002304 * 0)); [exfalso; Lra.lra |].
    destruct (Rle_dec 5.0 (0.002304 * 0)); Lra.lra. }
  split.
  { intros ph. unfold spec_bicarbonate, Rmax, Rmin.
    destruct (Rle_dec 500 (0.002304 * Rpower ph 5.792337));
      destruct (Rle_dec 5 _); Lra.lra. }
  split.
  { intros ph Hph. unfold spec_bicarbonate.
    apply (continuity_pt_nonexpansive (Rmax 5)
             (fun t => Rmin 500 (0.002304 * Rpower t 5.792337)));
      [apply Rmax_dist |].
    apply (continuity_pt_nonexpansive (Rmin 500)
             (fun t => 0.002304 * Rpower t 5.792337));
      [apply Rmin_dist |].
    now apply power_law_continuous. }
  split.
  { intros x y Hx Hxy. unfold spec_bicarbonate.
    apply Rmax_mono, Rmin_mono.
    apply Rmult_le_compat_l; [Lra.lra |].
    apply Rle_Rpower_l; Lra.lra. }
  intros x y Hxy Hlow Hhigh. unfold spec_bicarbonate.
  assert (Hpow : (Rpower x 5.792337 < Rpower y 5.792337)%R).
  { apply Rlt_Rpower_l; Lra.lra. }
  unfold Rmax, Rmin.
  destruct (Rle_dec 500 (0.002304 * Rpower x 5.792337));
    destruct (Rle_dec 500 (0.002304 * Rpower y 5.792337));
    repeat match goal with
           | |- context [Rle_dec ?a ?b] => destruct (Rle_dec a b)
           end; Lra.lra.
Qed.

Lemma bicarbonate_factor_clamped_power_law_witness :
  RainfallLookup.get_bicarbonate_factor 6 = Ok (spec_bicarbonate 6) /\
  continuity_pt spec_bicarbonate 6 /\
  (spec_bicarbonate 6 <= spec_bicarbonate 6.5)%R.
Proof.
  destruct bicarbonate_factor_clamped_power_law as (Hval & _ & _ & Hcont & Hmono & _).
  split; [apply Hval; Lra.lra |].
  split; [apply Hcont; Lra.lra |].
  apply Hmono; Lra.lra.
Defined.

End Bicarbonate.

(** * Further properties of the code *)

(** ** Lime types *)

(** X1: converting a non-negative CaO dose to a lime type never lowers it
    and multiplies it by 2.381 at most; a lime type that is not in the table
    leaves the dose as it is. *)
Theorem convert_lime_type_bounds (cao_equivalent : Q) (target_lime_type : string) :
  (0 <= cao_equivalent ->
   cao_equivalent <= VDLUFACalculator.convert_lime_type cao_equivalent target_lime_type
   /\ VDLUFACalculator.convert_lime_type cao_equivalent target_lime_type
      <= 2.381 * cao_equivalent) /\
  (dict_get VDLUFACalculator.LIME_CONVERSION_FACTORS target_lime_type = None ->
   VDLUFACalculator.convert_lime_type cao_equivalent target_lime_type = cao_equivalent).
Proof.
  split.
  - intros Hpos. unfold VDLUFACalculator.convert_lime_type,
      VDLUFACalculator.LIME_CONVERSION_FACTORS. cbn [dict_get].
    repeat match goal with
           | |- context [String.eqb target_lime_type ?k] =>
               destruct (String.eqb target_lime_type k)
           end; lra.
  - intros Hnone. unfold VDLUFACalculator.convert_lime_type. now rewrite Hnone.
Qed.

Lemma convert_lime_type_bounds_witness :
  1000 <= VDLUFACalculator.convert_lime_type 1000 "CaCO3" /\
  VDLUFACalculator.convert_lime_type 1000 "CaCO3" <= 2.381 * 1000.
Proof.
  apply (proj1 (convert_lime_type_bounds 1000 "CaCO3")).
  vm_compute. discriminate.
Defined.

Lemma convert_lime_type_compat (x y : Q) (t : string) :
  x == y ->
  VDLUFACalculator.convert_lime_type x t == VDLUFACalculator.convert_lime_type y t.
Proof.
  intros Hxy. unfold VDLUFACalculator.convert_lime_type.
  destruct (dict_get VDLUFACalculator.LIME_CONVERSION_FACTORS t); now rewrite Hxy.
Qed.

(** X2: the improvement dose in a lime type is the improvement dose in CaO
    converted to that type, whatever loss and neutralizing value are passed
    along. *)
Theorem vdlufa_improvement_dose_converts_cao_dose
    (current_ph : Q) (soil_texture : option string) (crop_type lime_type : string)
    (loss loss' : option Q) (nv nv' : Q) :
  exists cao,
    snd (VDLUFACalculator.calculate_lime_requirement current_ph soil_texture
           crop_type "CaO" "pH Improvement" loss nv) = Ok cao /\
    returns (VDLUFACalculator.calculate_lime_requirement current_ph soil_texture
               crop_type lime_type "pH Improvement" loss' nv')
            (VDLUFACalculator.convert_lime_type cao lime_type).
Proof.
  rewrite !vdlufa_improvement_dose. eexists. split; [reflexivity |].
  unfold returns, VDLUFACalculator.to_lime_type. cbn [snd ret].
  apply convert_lime_type_compat.
  unfold VDLUFACalculator.convert_lime_type. cbn. lra.
Qed.

(** ** The dose curves *)

(** X3: whatever the pH, the texture and the crop type, the forward curve
    gives a dose between -7.361 and 197.81 dt/ha; for the five texture
    classes of [SOIL_TEXTURES] it is never below -0.005 dt/ha. *)
Theorem forward_curve_bounds (crop_type : string) (current_ph : Q) :
  (forall mapped_texture,
     -7.361 <= VDLUFACalculator.forward_curve crop_type current_ph mapped_texture
     /\ VDLUFACalculator.forward_curve crop_type current_ph mapped_texture <= 197.81) /\
  (forall t, In t VDLUFACalculator.SOIL_TEXTURES ->
     -0.005 <= VDLUFACalculator.forward_curve crop_type current_ph (Some t)).
Proof.
  split.
  - intros mapped_texture.
    unfold VDLUFACalculator.forward_curve,
      VDLUFACalculator._calculate_standard_crops,
      VDLUFACalculator._calculate_other_crops.
    destruct (String.eqb crop_type "Standard crops");
      repeat match goal with
             | |- context [texture_is mapped_texture ?k] =>
                 destruct (texture_is mapped_texture k)
             end;
      qcases; lra.
  - intros t Ht. cbn in Ht.
    unfold VDLUFACalculator.forward_curve.
    destruct (String.eqb crop_type "Standard crops");
      repeat destruct Ht as [<- | Ht]; try contradiction;
      cbn -[Qle Qlt Qle_bool Qltb Qgtb Qmult Qplus];
      qcases; lra.
Qed.

Lemma forward_curve_bounds_witness :
  -0.005 <= VDLUFACalculator.forward_curve "Standard crops" 7.09
              (Some "Sandiger Schl Lehm").
Proof.
  apply (proj2 (forward_curve_bounds "Standard crops" 7.09)).
  cbn. tauto.
Defined.

(** ** The inverse of the empirical method *)

Lemma vdlufa_inverse_value (lime_kg_ha : Q) (soil_texture : option string)
    (crop_type lime_type : string) (current_ph full : Q) :
  snd (VDLUFACalculator.calculate_lime_requirement current_ph soil_texture
         crop_type lime_type "pH Improvement" None 100.0) = Ok full ->
  0 < lime_kg_ha -> 0 < full ->
  VDLUFACalculator.reverse_calculate_ph lime_kg_ha soil_texture crop_type
    lime_type (Some current_ph) =
  ret (current_ph
       + Qmin 1.0 (lime_kg_ha / full)
         * (VDLUFACalculator._get_optimal_ph
              (VDLUFACalculator.map_soil_texture soil_texture) crop_type
            - current_ph)).
Proof.
  rewrite vdlufa_improvement_dose. cbn [snd ret]. intros Hfull Hlime Hpos.
  injection Hfull as Hfull.
  unfold VDLUFACalculator.reverse_calculate_ph.
  qcase; [lra |].
  rewrite vdlufa_improvement_dose, !bind_ret_l, Hfull.
  qcase; [lra |].
  rewrite fdiv_value by lra. now rewrite bind_ret_l.
Qed.

(** X4: when the current pH is below the optimal pH and lime is both
    applied and needed, the pH that the inverse reports lies above the
    current pH and at most at the optimal pH. *)
Theorem vdlufa_inverse_between_current_and_optimal
    (lime_kg_ha : Q) (soil_texture : option string)
    (crop_type lime_type : string) (current_ph full : Q) :
  snd (VDLUFACalculator.calculate_lime_requirement current_ph soil_texture
         crop_type lime_type "pH Improvement" None 100.0) = Ok full ->
  0 < lime_kg_ha -> 0 < full ->
  current_ph <
  VDLUFACalculator._get_optimal_ph
    (VDLUFACalculator.map_soil_texture soil_texture) crop_type ->
  exists achieved,
    snd (VDLUFACalculator.reverse_calculate_ph lime_kg_ha soil_texture crop_type
           lime_type (Some current_ph)) = Ok achieved /\
    current_ph < achieved /\
    achieved <= VDLUFACalculator._get_optimal_ph
                  (VDLUFACalculator.map_soil_texture soil_texture) crop_type.
Proof.
  intros Hfull Hlime Hpos Hbelow.
  rewrite (vdlufa_inverse_value _ _ _ _ _ _ Hfull Hlime Hpos).
  eexists. split; [reflexivity |].
  set (opt := VDLUFACalculator._get_optimal_ph _ _) in *.
  assert (Hq : 0 < lime_kg_ha / full).
  { apply Qlt_shift_div_l; lra. }
  set (q := lime_kg_ha / full) in *.
  assert (Hf : 0 < Qmin 1.0 q /\ Qmin 1.0 q <= 1).
  { split.
    - apply Q.min_glb_lt; lra.
    - eapply Qle_trans; [apply Q.le_min_l | lra]. }
  destruct Hf as [Hf0 Hf1]. set (f := Qmin 1.0 q) in *.
  split; nra.
Qed.

Lemma vdlufa_inverse_between_current_and_optimal_witness :
  exists achieved,
    snd (VDLUFACalculator.reverse_calculate_ph 1000 (Some "Sand") "Standard crops"
           "CaCO3" (Some 5.2)) = Ok achieved /\
    5.2 < achieved /\
    achieved <= VDLUFACalculator._get_optimal_ph
                  (VDLUFACalculator.map_soil_texture (Some "Sand")) "Standard crops".
Proof.
  apply (vdlufa_inverse_between_current_and_optimal 1000 (Some "Sand")
           "Standard crops" "CaCO3" 5.2 1786.071000000).
  - reflexivity.
  - reflexivity.
  - reflexivity.
  - reflexivity.
Defined.

(** X5: applying the whole improvement dose, or more, is reported as
    reaching the optimal pH. *)
Theorem vdlufa_inverse_of_full_dose_is_optimal
    (lime_kg_ha : Q) (soil_texture : option string)
    (crop_type lime_type : string) (current_ph full : Q) :
  snd (VDLUFACalculator.calculate_lime_requirement current_ph soil_texture
         crop_type lime_type "pH Improvement" None 100.0) = Ok full ->
  0 < full -> full <= lime_kg_ha ->
  returns (VDLUFACalculator.reverse_calculate_ph lime_kg_ha soil_texture crop_type
             lime_type (Some current_ph))
          (VDLUFACalculator._get_optimal_ph
             (VDLUFACalculator.map_soil_texture soil_texture) crop_type).
Proof.
  intros Hfull Hpos Hall.
  rewrite (vdlufa_inverse_value _ _ _ _ _ _ Hfull) by lra.
  unfold returns. cbn [snd ret].
  assert (Hq : 1 <= lime_kg_ha / full).
  { apply Qle_shift_div_l; lra. }
  assert (Hmin : Qmin 1.0 (lime_kg_ha / full) == 1.0).
  { apply Q.min_l. lra. }
  rewrite Hmin. ring.
Qed.

Lemma vdlufa_inverse_of_full_dose_is_optimal_witness :
  returns (VDLUFACalculator.reverse_calculate_ph 2000 (Some "Sand") "Standard crops"
             "CaCO3" (Some 5.2))
          (VDLUFACalculator._get_optimal_ph
             (VDLUFACalculator.map_soil_texture (Some "Sand")) "Standard crops").
Proof.
  apply (vdlufa_inverse_of_full_dose_is_optimal 2000 (Some "Sand")
           "Standard crops" "CaCO3" 5.2 1786.071000000).
  - reflexivity.
  - reflexivity.
  - vm_compute. discriminate.
Defined.

(** Turn a division by a literal into a multiplication by its inverse. *)
Ltac qdiv_literal :=
  unfold Qdiv;
  repeat match goal with
         | |- context [Qinv (Qmake ?n ?d)] =>
             let v := eval vm_compute in (Qinv (Qmake n d)) in
             change (Qinv (Qmake n d)) with v
         end.

(** X6: without a current pH the inverse falls back on the reverse tables;
    it never raises, and whatever the amount of lime, the texture, the crop
    type and the lime type, the pH it reports lies between 3.29 and 7.3. *)
Theorem vdlufa_table_inverse_bounds (lime_kg_ha : Q) (soil_texture : option string)
    (crop_type lime_type : string) :
  exists ph,
    snd (VDLUFACalculator.reverse_calculate_ph lime_kg_ha soil_texture crop_type
           lime_type None) = Ok ph /\
    3.29 <= ph /\ ph <= 7.3.
Proof.
  unfold VDLUFACalculator.reverse_calculate_ph.
  set (cao_dt_ha := _ / 100). clearbody cao_dt_ha.
  set (mapped := VDLUFACalculator.map_soil_texture soil_texture).
  clearbody mapped.
  destruct (String.eqb crop_type "Standard crops");
    (eexists; split; [reflexivity |]);
    [unfold VDLUFACalculator._reverse_standard_crops
    | unfold VDLUFACalculator._reverse_other_crops];
    repeat match goal with
           | |- context [texture_is mapped ?k] => destruct (texture_is mapped k)
           end;
    qcases; qdiv_literal; lra.
Qed.

(** ** The CEC formula, further *)

(** X7: in [pH Improvement] mode, with a neutralizing value other than
    zero, the CEC calculator returns a dose, with or without the saturation
    adjustment, and the dose is never negative. *)
Theorem cec_improvement_dose_non_negative
    (current_ph target_ph cec_soil fine_dry_soil nv dose : Q)
    (s_cec_percentage modified_s_cec caco3_loss_kg_ha : option Q) :
  ~ nv == 0 ->
  exists lime,
    snd (CECCalculator.calculate_lime_requirement current_ph target_ph cec_soil
           fine_dry_soil nv dose s_cec_percentage modified_s_cec "pH Improvement"
           caco3_loss_kg_ha) = Ok lime /\
    0 <= lime.
Proof.
  intros Hnv.
  assert (Hstd : forall ph, exists q,
             CECCalculator._calculate_standard ph target_ph cec_soil fine_dry_soil
               nv dose = ret q /\ 0 <= q).
  { intros ph. destruct (Qlt_le_dec ph target_ph) as [Hlt | Hge].
    - rewrite _calculate_standard_below_target by assumption.
      eexists. split; [reflexivity |].
      eapply Qle_trans; [| apply Q.le_max_l]. lra.
    - rewrite _calculate_standard_at_target by assumption.
      eexists. split; [reflexivity |]. lra. }
  unfold CECCalculator.calculate_lime_requirement. cbn [String.eqb Ascii.eqb Bool.eqb].
  unfold CECCalculator.forward.
  destruct modified_s_cec as [m |], s_cec_percentage as [s |];
    try (destruct (Hstd current_ph) as (q & -> & Hq); exists q; now split).
  unfold CECCalculator._calculate_with_modified_s_cec. qcase.
  - destruct (Hstd current_ph) as (q1 & -> & Hq1).
    destruct (Hstd (CECCalculator._s_cec_to_ph m)) as (q2 & -> & Hq2).
    rewrite !bind_ret_l. eexists. split; [reflexivity |]. qdiv_literal. lra.
  - eexists. split; [reflexivity |]. lra.
Qed.

Lemma cec_improvement_dose_non_negative_witness :
  exists lime,
    snd (CECCalculator.calculate_lime_requirement 5.8 6.5 10.0 1500 53 (-1)
           (Some 40) (Some 60) "pH Improvement" None) = Ok lime /\
    0 <= lime.
Proof.
  apply (cec_improvement_dose_non_negative 5.8 6.5 10.0 1500 53 (-1)
           (Some 40) (Some 60) None).
  lra.
Defined.

(** X8: the other direction of the round trip.  For a positive amount of
    lime, a neutralizing value other than zero and [K * dose] positive, the
    inverse reports a pH above the current pH, and the forward formula
    towards that pH gives the amount of lime back. *)
Theorem cec_inverse_then_forward
    (lime_kg_ha current_ph cec_soil fine_dry_soil nv dose : Q) :
  0 < lime_kg_ha -> ~ nv == 0 ->
  0 < spec_K cec_soil fine_dry_soil nv * dose ->
  exists achieved,
    snd (CECCalculator.reverse_calculate_ph lime_kg_ha current_ph cec_soil
           fine_dry_soil nv dose) = Ok achieved /\
    current_ph < achieved /\
    returns (CECCalculator._calculate_standard current_ph achieved cec_soil
               fine_dry_soil nv dose) lime_kg_ha.
Proof.
  intros Hlime Hnv HK. unfold spec_K in HK.
  unfold CECCalculator.reverse_calculate_ph.
  qcase; [lra |].
  rewrite k_factor_value by exact Hnv. rewrite bind_ret_l.
  set (k := (cec_soil * 150 / 3500) * fine_dry_soil / (nv * 10) / 0.5) in *.
  qcase; [nra |].
  rewrite fdiv_value by exact Hcmp0. rewrite bind_ret_l.
  eexists. split; [reflexivity |].
  assert (Hq : 0 < lime_kg_ha / (k * 1000 * dose)).
  { apply Qlt_shift_div_l; nra. }
  split; [lra |].
  rewrite _calculate_standard_below_target by (try assumption; lra).
  fold k. unfold returns. cbn [snd ret].
  assert (Heq : k * ((current_ph + lime_kg_ha / (k * 1000 * dose) - current_ph) * dose)
                * 1000 == lime_kg_ha).
  { field. split; intros Hz; rewrite Hz in HK; lra. }
  rewrite Heq. apply Q.max_r. lra.
Qed.

Lemma cec_inverse_then_forward_witness :
  exists achieved,
    snd (CECCalculator.reverse_calculate_ph 1000 5.8 10.0 1500 53 1.0) = Ok achieved /\
    5.8 < achieved /\
    returns (CECCalculator._calculate_standard 5.8 achieved 10.0 1500 53 1.0) 1000.
Proof.
  apply (cec_inverse_then_forward 1000 5.8 10.0 1500 53 1.0).
  - reflexivity.
  - lra.
  - reflexivity.
Defined.



Lemma _calculate_standard_compat
    (ph ph' target_ph cec_soil fine_dry_soil nv dose q q' : Q) :
  ph == ph' ->
  snd (CECCalculator._calculate_standard ph target_ph cec_soil fine_dry_soil nv dose)
  = Ok q ->
  snd (CECCalculator._calculate_standard ph' target_ph cec_soil fine_dry_soil nv dose)
  = Ok q' ->
  q == q'.
Proof.
  intros Hph. unfold CECCalculator._calculate_standard.
  qcase; qcase; try (exfalso; lra).
  - cbn. intros H H'. injection H as <-. injection H' as <-. reflexivity.
  - unfold CECCalculator.k_factor, fdiv.
    destruct (nv * 10 =? 0); [discriminate |].
    cbn. intros H H'. injection H as <-. injection H' as <-. now rewrite Hph.
Qed.

(** X10: when the pH derived from the modified saturation is the current
    pH, the saturation adjustment changes nothing: the adjusted dose is the
    standard dose. *)
Theorem modified_s_cec_at_current_ph_is_standard
    (current_ph target_ph cec_soil fine_dry_soil nv dose : Q)
    (s_cec_percentage modified_s_cec lime : Q) :
  CECCalculator._s_cec_to_ph modified_s_cec == current_ph ->
  snd (CECCalculator._calculate_standard current_ph target_ph cec_soil
         fine_dry_soil nv dose) = Ok lime ->
  returns (CECCalculator._calculate_with_modified_s_cec current_ph target_ph
             cec_soil fine_dry_soil nv dose s_cec_percentage modified_s_cec) lime.
Proof.
  intros Hsame Hstd. unfold CECCalculator._calculate_with_modified_s_cec.
  set (sph := CECCalculator._s_cec_to_ph modified_s_cec) in *.
  unfold returns. qcase.
  - rewrite (snd_bind_Ok _ _ lime Hstd).
    destruct (CECCalculator._calculate_standard sph target_ph cec_soil
                fine_dry_soil nv dose) as [l' [q' | e]] eqn:Esph.
    + assert (Hq : q' == lime).
      { apply (_calculate_standard_compat sph current_ph target_ph cec_soil
                 fine_dry_soil nv dose q' lime Hsame); [now rewrite Esph | exact Hstd]. }
      cbn. rewrite Hq. field.
    + exfalso. revert Esph Hstd. unfold CECCalculator._calculate_standard.
      qcase; qcase; try discriminate; try (intros _ _; lra).
      unfold CECCalculator.k_factor, fdiv.
      destruct (nv * 10 =? 0); cbn; intros H1 H2; discriminate.
  - assert (Hge : target_ph <= current_ph).
    { revert Hcmp. qdiv_literal. intros Hcmp. lra. }
    rewrite _calculate_standard_at_target in Hstd by exact Hge.
    cbn in Hstd. injection Hstd as <-. reflexivity.
Qed.

Lemma modified_s_cec_at_current_ph_is_standard_witness :
  returns (CECCalculator._calculate_with_modified_s_cec 5.5 6.5 10.0 1500 53 1.0
             40 25)
          (225000000000000 # 92750000000).
Proof.
  apply (modified_s_cec_at_current_ph_is_standard 5.5 6.5 10.0 1500 53 1.0 40 25).
  - reflexivity.
  - vm_compute. reflexivity.
Defined.



(** ** The textures of the CEC method *)

Lemma truthy_Some (s : string) : truthy (Some s) = negb (String.eqb s "").
Proof. destruct s; reflexivity. Qed.

(** Every value of [TEXTURE_TO_USDA_MAPPING] is a non-empty name that the
    conversion leaves as it is. *)
Lemma usda_names_are_fixed (k v : string) :
  dict_get CECCalculator.TEXTURE_TO_USDA_MAPPING k = Some v ->
  truthy (Some v) = true /\
  CECCalculator.convert_to_usda_texture (Some v) = Some v.
Proof.
  unfold CECCalculator.TEXTURE_TO_USDA_MAPPING. cbn [dict_get].
  repeat match goal with
         | |- context [String.eqb k ?k'] =>
             destruct (String.eqb k k');
             [intros H; injection H as <-; split; reflexivity |]
         end.
  discriminate.
Qed.

(** The conversion of a non-empty texture: its table value, or itself. *)
Lemma convert_to_usda_texture_nonempty (s : string) :
  String.eqb s "" = false ->
  CECCalculator.convert_to_usda_texture (Some s) =
  Some (match dict_get CECCalculator.TEXTURE_TO_USDA_MAPPING s with
        | Some v => v
        | None => s
        end).
Proof.
  intros Eempty.
  assert (Hs : truthy (Some s) = true) by now rewrite truthy_Some, Eempty.
  unfold CECCalculator.convert_to_usda_texture. rewrite Hs. cbn [negb].
  destruct (dict_get CECCalculator.TEXTURE_TO_USDA_MAPPING s) as [v |] eqn:Ev;
    [| reflexivity].
  destruct (usda_names_are_fixed s v Ev) as [Hv _]. now rewrite Hv.
Qed.

Lemma convert_to_usda_texture_None (soil_texture : option string) :
  CECCalculator.convert_to_usda_texture soil_texture = None <->
  soil_texture = None \/ soil_texture = Some "".
Proof.
  destruct soil_texture as [s |]; [| tauto].
  destruct (String.eqb s "") eqn:Eempty.
  - apply String.eqb_eq in Eempty. subst s. tauto.
  - rewrite (convert_to_usda_texture_nonempty s Eempty).
    split; [discriminate |]. intros [H | H]; [discriminate |].
    injection H as ->. discriminate.
Qed.

(** X12: converting a texture to the USDA vocabulary a second time changes
    nothing, and the conversion gives [None] for [None] and the empty string
    only. *)
Theorem convert_to_usda_texture_idempotent (soil_texture : option string) :
  CECCalculator.convert_to_usda_texture
    (CECCalculator.convert_to_usda_texture soil_texture) =
  CECCalculator.convert_to_usda_texture soil_texture /\
  (CECCalculator.convert_to_usda_texture soil_texture = None <->
   soil_texture = None \/ soil_texture = Some "").
Proof.
  split; [| apply convert_to_usda_texture_None].
  destruct soil_texture as [s |]; [| reflexivity].
  destruct (String.eqb s "") eqn:Eempty.
  { apply String.eqb_eq in Eempty. subst s. reflexivity. }
  rewrite (convert_to_usda_texture_nonempty s Eempty).
  destruct (dict_get CECCalculator.TEXTURE_TO_USDA_MAPPING s) as [v |] eqn:Ev.
  - now destruct (usda_names_are_fixed s v Ev) as [_ Hfix].
  - rewrite (convert_to_usda_texture_nonempty s Eempty). now rewrite Ev.
Qed.

(** *** Substrings *)

Lemma prefix_contains (b l : string) :
  String.prefix b l = true -> contains b l = true.
Proof. intros H. destruct l; cbn [contains]; now rewrite H. Qed.

Lemma contains_tail (b : string) (c : ascii) (l : string) :
  contains b l = true -> contains b (String c l) = true.
Proof.
  intros H. cbn [contains].
  destruct (String.prefix b (String c l)); [reflexivity | exact H].
Qed.

Lemma prefix_app_contains (a b l : string) :
  String.prefix (a ++ b) l = true -> contains b l = true.
Proof.
  revert l. induction a as [| c a IH]; intros l H.
  - now apply prefix_contains.
  - destruct l as [| c' l]; [discriminate |].
    cbn in H. destruct (ascii_dec c c'); [| discriminate].
    apply contains_tail. now apply IH.
Qed.

Lemma contains_app (a b l : string) :
  contains (a ++ b) l = true -> contains b l = true.
Proof.
  induction l as [| c l IH]; cbn [contains];
    destruct (String.prefix (a ++ b) _) eqn:E;
    try (intros _; now apply prefix_app_contains in E);
    try discriminate.
  intros H. apply contains_tail. now apply IH.
Qed.

(** X13: in the partial matching of [get_cec_for_texture] the branch for
    "sandy clay loam" is never taken, because "clay loam" is tested before
    it: a texture that contains "sandy clay loam" gets the value of
    [Clay Loam] (25 when the table has none), or that of [Organic] when it
    also contains "organic". *)
Theorem partial_match_sandy_clay_loam_is_clay_loam
    (SOIL_CEC_VALUES : list (string * Q)) (texture_lower : string) :
  contains "sandy clay loam" texture_lower = true ->
  CECCalculator.partial_match SOIL_CEC_VALUES texture_lower =
  if contains "organic" texture_lower
  then CECCalculator.cec_or SOIL_CEC_VALUES "Organic" 100
  else CECCalculator.cec_or SOIL_CEC_VALUES "Clay Loam" 25.
Proof.
  intros H. apply (contains_app "sandy " "clay loam") in H.
  unfold CECCalculator.partial_match. now rewrite H.
Qed.

Lemma partial_match_sandy_clay_loam_is_clay_loam_witness :
  CECCalculator.partial_match [] "light sandy clay loam" = 25.
Proof.
  apply (partial_match_sandy_clay_loam_is_clay_loam [] "light sandy clay loam").
  reflexivity.
Defined.

Lemma dict_get_In {V : Type} (d : list (string * V)) (k : string) (v : V) :
  dict_get d k = Some v -> In (k, v) d.
Proof.
  induction d as [| [k' v'] d IH]; [discriminate |].
  cbn. destruct (String.eqb k k') eqn:E.
  - apply String.eqb_eq in E. subst k'. intros H. injection H as ->. now left.
  - intros H. right. now apply IH.
Qed.

Lemma case_insensitive_match_In (rows : list (string * Q)) (s : string) (v : Q) :
  CECCalculator.case_insensitive_match rows s = Some v ->
  exists k, In (k, v) rows /\ lower k = lower s.
Proof.
  induction rows as [| [k' v'] rows IH]; [discriminate |].
  cbn. destruct (String.eqb (lower k') (lower s)) eqn:E.
  - apply String.eqb_eq in E. intros H. injection H as ->. exists k'. auto.
  - intros H. destruct (IH H) as (k & Hin & Hk). exists k. auto.
Qed.

(** X14: the exchange capacity that [get_cec_for_texture] returns is a
    value of the loaded table or one of the built-in defaults, which lie
    between 5 and 100; without a texture it is 15. *)
Theorem get_cec_for_texture_from_table_or_default
    (SOIL_CEC_VALUES : list (string * Q)) (soil_texture : option string) :
  ((exists k, In (k, CECCalculator.get_cec_for_texture SOIL_CEC_VALUES soil_texture)
                SOIL_CEC_VALUES) \/
   (5 <= CECCalculator.get_cec_for_texture SOIL_CEC_VALUES soil_texture /\
    CECCalculator.get_cec_for_texture SOIL_CEC_VALUES soil_texture <= 100)) /\
  (truthy soil_texture = false ->
   CECCalculator.get_cec_for_texture SOIL_CEC_VALUES soil_texture = 15.0).
Proof.
  split.
  - unfold CECCalculator.get_cec_for_texture.
    destruct soil_texture as [s |]; [| right; split; lra].
    destruct (negb (truthy (Some s))); [right; split; lra |].
    match goal with
    | |- context [match ?x with Some _ => _ | None => _ end] =>
        destruct x as [v |] eqn:E1
    end.
    { left. destruct (CECCalculator.convert_to_usda_texture (Some s)) as [m |];
        [| discriminate].
      destruct (truthy (Some m)); [| discriminate].
      exists m. now apply dict_get_In. }
    destruct (dict_get SOIL_CEC_VALUES s) as [v |] eqn:E2.
    { left. exists s. now apply dict_get_In. }
    destruct (CECCalculator.case_insensitive_match SOIL_CEC_VALUES s) as [v |] eqn:E3.
    { left. apply case_insensitive_match_In in E3. destruct E3 as (k & Hin & _).
      now exists k. }
    unfold CECCalculator.partial_match, CECCalculator.cec_or.
    repeat match goal with
           | |- context [contains ?n (lower s)] => destruct (contains n (lower s))
           end;
      try (right; split; lra);
      match goal with
      | |- context [dict_get SOIL_CEC_VALUES ?k] =>
          destruct (dict_get SOIL_CEC_VALUES k) as [v |] eqn:E4;
          [left; exists k; now apply dict_get_In | right; split; lra]
      end.
  - intros Hfalsy. unfold CECCalculator.get_cec_for_texture.
    destruct soil_texture as [s |]; [| reflexivity]. now rewrite Hfalsy.
Qed.

Lemma get_cec_for_texture_from_table_or_default_witness :
  CECCalculator.get_cec_for_texture [("Sandy Loam", 10)] (Some "") = 15.0.
Proof.
  apply (proj2 (get_cec_for_texture_from_table_or_default
                  [("Sandy Loam", 10)] (Some ""))).
  reflexivity.
Defined.

(** ** The orchestration, further *)

(** X15: when the requested mode is neither [pH Maintenance] nor
    [Automatic], the leaching loss of the sample has no influence on the
    prescription, on either path. *)
Theorem improvement_mode_ignores_leaching_loss
    (SOIL_CEC_VALUES : list (string * Q))
    (s : LimingPrescription.sample) (p : LimingPrescription.params)
    (loss : option Q) :
  LimingPrescription.get_or (LimingPrescription.liming_mode p) "pH Improvement"
    <> "pH Maintenance" ->
  LimingPrescription.get_or (LimingPrescription.liming_mode p) "pH Improvement"
    <> "Automatic" ->
  LimingPrescription._calculate_vdlufa_prescription
    (Orchestration.with_caco3_loss s loss) p =
  LimingPrescription._calculate_vdlufa_prescription s p /\
  LimingPrescription._calculate_cec_prescription SOIL_CEC_VALUES
    (Orchestration.with_caco3_loss s loss) p =
  LimingPrescription._calculate_cec_prescription SOIL_CEC_VALUES s p.
Proof.
  intros Hm Ha.
  assert (Huses : LimingPrescription.uses_loss
                    (LimingPrescription.get_or (LimingPrescription.liming_mode p)
                       "pH Improvement") = false).
  { unfold LimingPrescription.uses_loss.
    apply String.eqb_neq in Hm, Ha. now rewrite Hm, Ha. }
  split.
  - unfold LimingPrescription._calculate_vdlufa_prescription,
      LimingPrescription.vdlufa_nominal, LimingPrescription.vdlufa_mode.
    rewrite Huses. reflexivity.
  - unfold LimingPrescription._calculate_cec_prescription,
      LimingPrescription.cec_nominal, LimingPrescription.cec_mode.
    rewrite Huses. reflexivity.
Qed.

Lemma improvement_mode_ignores_leaching_loss_witness :
  LimingPrescription._calculate_cec_prescription []
    (Orchestration.with_caco3_loss
       {| LimingPrescription.ph_value := Some 5.8;
          LimingPrescription.soil_texture := None;
          LimingPrescription.caco3_loss_kg_ha := None |} (Some 130))
    (LimingPrescription.cec_request 6.5 1500 53 1.0 10.0 "pH Improvement"
       None None None) =
  LimingPrescription._calculate_cec_prescription []
    {| LimingPrescription.ph_value := Some 5.8;
       LimingPrescription.soil_texture := None;
       LimingPrescription.caco3_loss_kg_ha := None |}
    (LimingPrescription.cec_request 6.5 1500 53 1.0 10.0 "pH Improvement"
       None None None).
Proof.
  apply (improvement_mode_ignores_leaching_loss []
           {| LimingPrescription.ph_value := Some 5.8;
              LimingPrescription.soil_texture := None;
              LimingPrescription.caco3_loss_kg_ha := None |}
           (LimingPrescription.cec_request 6.5 1500 53 1.0 10.0 "pH Improvement"
              None None None) (Some 130)).
  - discriminate.
  - discriminate.
Defined.

Lemma no_lime_due_label (what liming_mode : string) (current_ph reference_ph : Q) :
  no_lime_due liming_mode current_ph reference_ph ->
  String.prefix "None"
    (LimingPrescription.applied_mode_label what liming_mode current_ph reference_ph)
  = true.
Proof.
  intros [[-> H] | [-> H]]; unfold LimingPrescription.applied_mode_label;
    cbn [String.eqb Ascii.eqb Bool.eqb]; qcase; try (exfalso; lra); reflexivity.
Qed.

Lemma cap_and_report_zero (liming_mode applied_mode : string)
    (current_ph reference_ph : Q) (max_rate : option Q) (inverse : Q -> M Q) :
  (forall m, max_rate = Some m -> 0 <= m) ->
  exists target,
    LimingPrescription.cap_and_report liming_mode applied_mode current_ph
      reference_ph 0.0 max_rate inverse =
    ret (0.0, applied_mode, Some target, false).
Proof.
  intros Hmax. unfold LimingPrescription.cap_and_report.
  destruct max_rate as [m |]; [| eexists; reflexivity].
  specialize (Hmax m eq_refl). qcase; [eexists; reflexivity | exfalso; lra].
Qed.

(** X16: on both paths, when [pH Maintenance] is requested for a sample
    at or above the reference pH, or [Automatic] for a sample above it, and
    the maximum rate, if any, is not negative, the prescription is a dose of
    0 that is not capped, under a label that starts with [None]. *)
Theorem no_lime_at_or_above_reference
    (SOIL_CEC_VALUES : list (string * Q))
    (s : LimingPrescription.sample) (p : LimingPrescription.params)
    (current_ph : Q) :
  LimingPrescription.ph_value s = Some current_ph ->
  (forall m, LimingPrescription.max_application_rate p = Some m -> 0 <= m) ->
  (no_lime_due (LimingPrescription.vdlufa_mode p) current_ph
     (LimingPrescription.vdlufa_optimal_ph s p) ->
   exists r,
     snd (LimingPrescription._calculate_vdlufa_prescription s p) = Ok r /\
     LimingPrescription.lime_of r = 0.0 /\
     LimingPrescription.capped_of r = false /\
     String.prefix "None" (LimingPrescription.mode_of r) = true) /\
  (forall fine_dry_soil nv,
     LimingPrescription.fine_dry_soil p = Some fine_dry_soil ->
     LimingPrescription.nv p = Some nv ->
     no_lime_due (LimingPrescription.cec_mode p) current_ph
       (LimingPrescription.cec_target_ph p) ->
     exists r,
       snd (LimingPrescription._calculate_cec_prescription SOIL_CEC_VALUES s p) = Ok r /\
       LimingPrescription.lime_of r = 0.0 /\
       LimingPrescription.capped_of r = false /\
       String.prefix "None" (LimingPrescription.mode_of r) = true).
Proof.
  intros Hph Hmax. split.
  - intros Hdue.
    unfold LimingPrescription._calculate_vdlufa_prescription. rewrite Hph.
    assert (Hnom : snd (LimingPrescription.vdlufa_nominal s p current_ph) = Ok 0.0).
    { unfold LimingPrescription.vdlufa_nominal.
      fold (LimingPrescription.vdlufa_optimal_ph s p) in *.
      destruct Hdue as [[Hmode H] | [Hmode H]]; rewrite Hmode.
      - now apply vdlufa_maintenance_at_optimal.
      - unfold VDLUFACalculator.calculate_lime_requirement.
        fold (LimingPrescription.vdlufa_texture s p).
        cbn [String.eqb Ascii.eqb Bool.eqb].
        change (VDLUFACalculator._get_optimal_ph _ _)
          with (LimingPrescription.vdlufa_optimal_ph s p).
        qcase; [reflexivity | exfalso; lra]. }
    rewrite (snd_bind_Ok _ _ _ Hnom).
    edestruct cap_and_report_zero as [target ->]; [exact Hmax |].
    eexists. split; [reflexivity |]. repeat split.
    now apply no_lime_due_label.
  - intros fine_dry_soil nv Hfds Hnv Hdue.
    unfold LimingPrescription._calculate_cec_prescription.
    rewrite Hph, Hfds, Hnv.
    assert (Hnom : snd (LimingPrescription.cec_nominal SOIL_CEC_VALUES s p
                          current_ph fine_dry_soil nv) = Ok 0.0).
    { unfold LimingPrescription.cec_nominal.
      destruct Hdue as [[Hmode H] | [Hmode H]]; rewrite Hmode.
      - now apply cec_maintenance_at_target.
      - unfold CECCalculator.calculate_lime_requirement.
        cbn [String.eqb Ascii.eqb Bool.eqb].
        qcase; [exfalso; lra | reflexivity]. }
    rewrite (snd_bind_Ok _ _ _ Hnom).
    edestruct cap_and_report_zero as [target ->]; [exact Hmax |].
    eexists. split; [reflexivity |]. repeat split.
    now apply no_lime_due_label.
Qed.

Lemma no_lime_at_or_above_reference_witness :
  exists r,
    snd (LimingPrescription._calculate_cec_prescription []
           {| LimingPrescription.ph_value := Some 6.8;
              LimingPrescription.soil_texture := None;
              LimingPrescription.caco3_loss_kg_ha := Some 130 |}
           (LimingPrescription.cec_request 6.5 1500 53 1.0 10.0 "pH Maintenance"
              (Some 3000) None None)) = Ok r /\
    LimingPrescription.lime_of r = 0.0 /\
    LimingPrescription.capped_of r = false /\
    String.prefix "None" (LimingPrescription.mode_of r) = true.
Proof.
  destruct (no_lime_at_or_above_reference []
              {| LimingPrescription.ph_value := Some 6.8;
                 LimingPrescription.soil_texture := None;
                 LimingPrescription.caco3_loss_kg_ha := Some 130 |}
              (LimingPrescription.cec_request 6.5 1500 53 1.0 10.0 "pH Maintenance"
                 (Some 3000) None None) 6.8 eq_refl) as [_ Hcec].
  - intros m Hm. injection Hm as <-. vm_compute. discriminate.
  - apply (Hcec 1500 53 eq_refl eq_refl).
    left. split; [reflexivity |]. vm_compute. discriminate.
Defined.

(** X17: a sample whose texture string resolves to nothing is reported
    with the default texture, but its dose is computed without it: the
    calculator works on the unknown texture (optimal pH 6.5), and the
    prescription of any sample that has a texture string does not depend on
    [default_soil_texture]. *)
Theorem default_soil_texture_only_for_missing_texture
    (s : LimingPrescription.sample) (p : LimingPrescription.params) (t : string) :
  LimingPrescription.soil_texture s = Some t ->
  (forall default,
     LimingPrescription._calculate_vdlufa_prescription s
       (Orchestration.with_default_soil_texture p default) =
     LimingPrescription._calculate_vdlufa_prescription s p) /\
  (VDLUFACalculator.map_soil_texture (Some t) = None ->
   Orchestration.actual_texture_used "VDLUFA" s p =
   Some (LimingPrescription.get_or (LimingPrescription.default_soil_texture p)
           "Sandiger Schl Lehm") /\
   LimingPrescription.vdlufa_optimal_ph s p = 6.5).
Proof.
  intros Ht. split.
  - intros default.
    unfold LimingPrescription._calculate_vdlufa_prescription,
      LimingPrescription.vdlufa_nominal, LimingPrescription.vdlufa_inverse,
      LimingPrescription.vdlufa_optimal_ph, LimingPrescription.vdlufa_texture.
    rewrite Ht. reflexivity.
  - intros Hmap. split.
    + unfold Orchestration.actual_texture_used. cbn [String.eqb Ascii.eqb Bool.eqb].
      rewrite Ht, Hmap. reflexivity.
    + unfold LimingPrescription.vdlufa_optimal_ph, LimingPrescription.vdlufa_texture.
      rewrite Ht, Hmap. unfold VDLUFACalculator._get_optimal_ph.
      destruct (dict_get VDLUFACalculator.optimal_ph_values _); reflexivity.
Qed.

Lemma default_soil_texture_only_for_missing_texture_witness :
  Orchestration.actual_texture_used "VDLUFA"
    {| LimingPrescription.ph_value := Some 5.2;
       LimingPrescription.soil_texture := Some "gravel";
       LimingPrescription.caco3_loss_kg_ha := None |}
    (LimingPrescription.vdlufa_request "Standard crops" "CaO" "pH Improvement"
       "Toniger Lehm b.Ton" None) = Some "Toniger Lehm b.Ton" /\
  LimingPrescription.vdlufa_optimal_ph
    {| LimingPrescription.ph_value := Some 5.2;
       LimingPrescription.soil_texture := Some "gravel";
       LimingPrescription.caco3_loss_kg_ha := None |}
    (LimingPrescription.vdlufa_request "Standard crops" "CaO" "pH Improvement"
       "Toniger Lehm b.Ton" None) = 6.5.
Proof.
  apply (default_soil_texture_only_for_missing_texture
           {| LimingPrescription.ph_value := Some 5.2;
              LimingPrescription.soil_texture := Some "gravel";
              LimingPrescription.caco3_loss_kg_ha := None |}
           (LimingPrescription.vdlufa_request "Standard crops" "CaO"
              "pH Improvement" "Toniger Lehm b.Ton" None) "gravel").
  - reflexivity.
  - reflexivity.
Defined.

(** X18: the texture that [calculate_prescription] reports.  For the
    VDLUFA method there always is one: a class of [SOIL_TEXTURES], the name
    [Stark Lehm Sand] of the keyword fallback, or the default.  For any other
    method there is none only when the sample's texture is the empty
    string. *)
Theorem actual_texture_used_present
    (s : LimingPrescription.sample) (p : LimingPrescription.params) :
  (exists r,
     Orchestration.actual_texture_used "VDLUFA" s p = Some r /\
     (In r VDLUFACalculator.SOIL_TEXTURES \/ r = "Stark Lehm Sand" \/
      r = LimingPrescription.get_or (LimingPrescription.default_soil_texture p)
            "Sandiger Schl Lehm")) /\
  (forall method, method <> "VDLUFA" ->
     (Orchestration.actual_texture_used method s p = None <->
      LimingPrescription.soil_texture s = Some "")).
Proof.
  split.
  - unfold Orchestration.actual_texture_used. cbn [String.eqb Ascii.eqb Bool.eqb].
    destruct (LimingPrescription.soil_texture s) as [t |];
      [| eexists; split; [reflexivity | tauto]].
    destruct (VDLUFACalculator.map_soil_texture (Some t)) as [r |] eqn:E.
    + destruct (truthy (Some r)).
      * exists r. split; [reflexivity |].
        apply map_soil_texture_range in E. tauto.
      * eexists. split; [reflexivity | tauto].
    + eexists. split; [reflexivity | tauto].
  - intros method Hmethod. unfold Orchestration.actual_texture_used.
    apply String.eqb_neq in Hmethod. rewrite Hmethod.
    destruct (LimingPrescription.soil_texture s) as [t |].
    + rewrite convert_to_usda_texture_None.
      split; [intros [H | H]; [discriminate | exact H] | tauto].
    + split; discriminate.
Qed.

(** ** The summary of a batch *)

Lemma flen_cons {A} (x : A) (l : list A) : flen (x :: l) == 1 + flen l.
Proof.
  unfold flen. cbn [length]. rewrite Nat2Z.inj_succ, <- Z.add_1_l.
  now rewrite inject_Z_plus.
Qed.

Lemma flen_nonneg {A} (l : list A) : 0 <= flen l.
Proof.
  unfold flen. change 0 with (inject_Z 0). rewrite <- Zle_Qle. apply Nat2Z.is_nonneg.
Qed.

Lemma fsum_bounds (l : list Q) (lo hi : Q) :
  (forall x, In x l -> lo <= x /\ x <= hi) ->
  lo * flen l <= fsum l /\ fsum l <= hi * flen l.
Proof.
  induction l as [| x l IH]; intros Hall.
  - unfold flen, inject_Z. cbn. split; lra.
  - rewrite flen_cons. cbn [fsum].
    destruct (Hall x (or_introl eq_refl)) as [Hlo Hhi].
    destruct IH as [IHlo IHhi]; [intros y Hy; apply Hall; now right |].
    split; lra.
Qed.

Lemma fmean_bounds (l : list Q) (lo hi : Q) :
  l <> [] ->
  (forall x, In x l -> lo <= x /\ x <= hi) ->
  exists v, fdiv (fsum l) (flen l) = ret v /\ lo <= v /\ v <= hi.
Proof.
  intros Hne Hall.
  assert (Hpos : 0 < flen l).
  { destruct l as [| x l]; [contradiction |].
    rewrite flen_cons. pose proof (flen_nonneg l). lra. }
  destruct (fsum_bounds l lo hi Hall) as [Hlo Hhi].
  rewrite fdiv_value by lra. eexists. split; [reflexivity |]. split.
  - apply Qle_shift_div_l; [exact Hpos | exact Hlo].
  - apply Qle_shift_div_r; [exact Hpos | exact Hhi].
Qed.

(** X19: the average dose of the summary is 0 for an empty batch; for any
    other batch the division does not fail and the average lies between the
    least and the greatest dose of the batch. *)
Theorem avg_lime_between_extremes (results : list Api.result_row) (lo hi : Q) :
  Api.avg_lime [] = ret 0 /\
  (results <> [] ->
   (forall r, In r results ->
      lo <= Api.lime_requirement_kg_ha r /\ Api.lime_requirement_kg_ha r <= hi) ->
   exists avg, snd (Api.avg_lime results) = Ok avg /\ lo <= avg /\ avg <= hi).
Proof.
  split; [reflexivity |]. intros Hne Hall.
  destruct results as [| r results]; [contradiction |].
  unfold Api.avg_lime.
  destruct (fmean_bounds (map Api.lime_requirement_kg_ha (r :: results)) lo hi)
    as (v & Hv & Hbounds).
  - discriminate.
  - intros x Hx. apply in_map_iff in Hx. destruct Hx as (r' & <- & Hr').
    now apply Hall.
  - exists v. split; [| exact Hbounds].
    unfold flen in *. rewrite length_map in Hv. now rewrite Hv.
Qed.

Lemma avg_lime_between_extremes_witness :
  exists avg,
    snd (Api.avg_lime
           [ {| Api.zone_area := Some 2; Api.lime_requirement_kg_ha := 1000 |};
             {| Api.zone_area := None; Api.lime_requirement_kg_ha := 3000 |} ])
    = Ok avg /\ 1000 <= avg /\ avg <= 3000.
Proof.
  apply (avg_lime_between_extremes
           [ {| Api.zone_area := Some 2; Api.lime_requirement_kg_ha := 1000 |};
             {| Api.zone_area := None; Api.lime_requirement_kg_ha := 3000 |} ]
           1000 3000).
  - discriminate.
  - intros r [<- | [<- | []]]; split; vm_compute; discriminate.
Defined.

(** X20: the total area counts a result without an area, or with the area
    0, as 0; it adds up over two batches put together, and it is not negative
    when no area is. *)
Theorem total_area_of_batches (a b : list Api.result_row) :
  Api.total_area (a ++ b) == Api.total_area a + Api.total_area b /\
  (forall r, Api.zone_area r = None ->
     Api.total_area (r :: a) == Api.total_area a) /\
  ((forall r x, In r a -> Api.zone_area r = Some x -> 0 <= x) ->
   0 <= Api.total_area a).
Proof.
  unfold Api.total_area. split; [| split].
  - induction a as [| r a IH]; cbn [app map fsum]; [lra |].
    rewrite IH. lra.
  - intros r Hr. cbn [map fsum]. unfold Api.area_or_zero. rewrite Hr. lra.
  - induction a as [| r a IH]; intros Hall; cbn [map fsum]; [lra |].
    assert (Hr : 0 <= Api.area_or_zero r).
    { unfold Api.area_or_zero. destruct (Api.zone_area r) as [x |] eqn:E; [| lra].
      qcase; [lra |]. apply (Hall r x); [now left | exact E]. }
    assert (Ha : 0 <= fsum (map Api.area_or_zero a)).
    { apply IH. intros r' x Hin. apply Hall. now right. }
    lra.
Qed.

(** ** Centroids *)

Lemma fmean_value_bounds (l : list Q) (lo hi : Q) :
  l <> [] ->
  (forall x, In x l -> lo <= x /\ x <= hi) ->
  (flen l =? 0) = false /\ lo <= fsum l / flen l /\ fsum l / flen l <= hi.
Proof.
  intros Hne Hall.
  assert (Hpos : 0 < flen l).
  { destruct l as [| x l]; [contradiction |].
    rewrite flen_cons. pose proof (flen_nonneg l). lra. }
  destruct (fsum_bounds l lo hi Hall) as [Hlo Hhi]. split; [| split].
  - destruct (flen l =? 0) eqn:E; [| reflexivity].
    apply Qeq_bool_true in E. lra.
  - apply Qle_shift_div_l; [exact Hpos | exact Hlo].
  - apply Qle_shift_div_r; [exact Hpos | exact Hhi].
Qed.

Lemma columns_in_box (xlo xhi ylo yhi : Q) (ring : RainfallGeometry.ring) :
  Forall (RainfallGeometry.in_box xlo xhi ylo yhi) ring ->
  exists lons lats,
    RainfallGeometry.column 0 ring = Some lons /\
    RainfallGeometry.column 1 ring = Some lats /\
    length lons = length ring /\ length lats = length ring /\
    (forall x, In x lons -> xlo <= x /\ x <= xhi) /\
    (forall y, In y lats -> ylo <= y /\ y <= yhi).
Proof.
  induction 1 as [| pos ring Hpos Hring IH].
  - exists [], []. cbn. repeat split; try reflexivity; contradiction.
  - destruct Hpos as (x & y & rest & -> & Hx & Hy).
    destruct IH as (lons & lats & E0 & E1 & L0 & L1 & B0 & B1).
    exists (x :: lons), (y :: lats). cbn [RainfallGeometry.column nth_error].
    rewrite E0, E1. cbn [length]. rewrite L0, L1.
    repeat split; try reflexivity.
    + now destruct H as [<- | H]; [| apply B0].
    + now destruct H as [<- | H]; [| apply B0].
    + now destruct H as [<- | H]; [| apply B1].
    + now destruct H as [<- | H]; [| apply B1].
Qed.

(** X21: for a polygon, or the first polygon of a multi-polygon, whose
    exterior ring is not empty and has positions of two coordinates at least,
    the centroid is found, and it lies inside every box that holds the
    vertices of the ring. *)
Theorem polygon_centroid_in_bounding_box (xlo xhi ylo yhi : Q)
    (exterior_ring : RainfallGeometry.ring)
    (holes : list RainfallGeometry.ring)
    (other_polygons : list (list RainfallGeometry.ring)) :
  exterior_ring <> [] ->
  Forall (RainfallGeometry.in_box xlo xhi ylo yhi) exterior_ring ->
  exists lon lat,
    RainfallGeometry.get_geometry_centroid
      (RainfallGeometry.Polygon (exterior_ring :: holes)) = Some [lon; lat] /\
    RainfallGeometry.get_geometry_centroid
      (RainfallGeometry.MultiPolygon ((exterior_ring :: holes) :: other_polygons))
    = Some [lon; lat] /\
    (xlo <= lon /\ lon <= xhi) /\ (ylo <= lat /\ lat <= yhi).
Proof.
  intros Hne Hbox.
  destruct (columns_in_box _ _ _ _ _ Hbox)
    as (lons & lats & E0 & E1 & L0 & L1 & B0 & B1).
  assert (Hlons : lons <> []).
  { intros ->. destruct exterior_ring; [contradiction | discriminate]. }
  assert (Hlats : lats <> []).
  { intros ->. destruct exterior_ring; [contradiction | discriminate]. }
  destruct (fmean_value_bounds lons xlo xhi Hlons B0) as (Hz & Hx).
  destruct (fmean_value_bounds lats ylo yhi Hlats B1) as (_ & Hy).
  exists (fsum lons / flen lons), (fsum lats / flen lats).
  cbn [RainfallGeometry.get_geometry_centroid].
  unfold RainfallGeometry.calculate_polygon_centroid. rewrite E0, E1, Hz.
  repeat split; tauto.
Qed.

Lemma polygon_centroid_in_bounding_box_witness :
  exists lon lat,
    RainfallGeometry.get_geometry_centroid
      (RainfallGeometry.Polygon
         [[[12.0; 49.0]; [12.2; 49.0]; [12.2; 49.1]; [12.0; 49.1]; [12.0; 49.0]]])
    = Some [lon; lat] /\
    RainfallGeometry.get_geometry_centroid
      (RainfallGeometry.MultiPolygon
         [[[[12.0; 49.0]; [12.2; 49.0]; [12.2; 49.1]; [12.0; 49.1]; [12.0; 49.0]]]])
    = Some [lon; lat] /\
    (12.0 <= lon /\ lon <= 12.2) /\ (49.0 <= lat /\ lat <= 49.1).
Proof.
  apply (polygon_centroid_in_bounding_box 12.0 12.2 49.0 49.1
           [[12.0; 49.0]; [12.2; 49.0]; [12.2; 49.1]; [12.0; 49.1]; [12.0; 49.0]]
           [] []).
  - discriminate.
  - repeat constructor;
      (eexists; eexists; eexists; split; [reflexivity |];
       split; split; vm_compute; discriminate).
Defined.

(** ** The leaching loss *)

Section Leaching.

Local Open Scope R_scope.

Variable round : R -> Z -> R.

Lemma get_bicarbonate_factor_from_zero (ph : R) :
  0 <= ph ->
  exists b, RainfallLookup.get_bicarbonate_factor ph = Ok b /\ 5 <= b <= 500.
Proof.
  intros Hph. unfold RainfallLookup.get_bicarbonate_factor, RainfallLookup.float_pow.
  destruct (Rlt_dec ph 0) as [Hneg | _]; [exfalso; Lra.lra |].
  destruct (Req_dec_T ph 0) as [_ | _];
    (eexists; split; [reflexivity |]);
    unfold Rmax, Rmin;
    match goal with
    | |- context [Rle_dec 500.0 ?x] => destruct (Rle_dec 500.0 x)
    end;
    match goal with
    | |- context [Rle_dec 5.0 ?x] => destruct (Rle_dec 5.0 x)
    end; Lra.lra.
Qed.

Lemma get_bicarbonate_factor_negative (ph : R) :
  ph < 0 -> RainfallLookup.get_bicarbonate_factor ph = Raise TypeError.
Proof.
  intros Hph. unfold RainfallLookup.get_bicarbonate_factor, RainfallLookup.float_pow.
  destruct (Rlt_dec ph 0) as [_ | H]; [reflexivity | contradiction].
Qed.

(** X22: [calculate_caco3_loss] gives [None] exactly when the texture has
    no entry in the clay table of the method or the pH is negative; no
    precipitation value makes it fail. *)
Theorem calculate_caco3_loss_None_iff (precipitation_mm : R) (soil_texture : string)
    (ph : R) (method : string) :
  LeachingLoss.calculate_caco3_loss round precipitation_mm soil_texture ph method
  = None <->
  dict_get (LeachingLoss.clay_table method) soil_texture = None \/ ph < 0.
Proof.
  unfold LeachingLoss.calculate_caco3_loss.
  destruct (dict_get (LeachingLoss.clay_table method) soil_texture) as [clay |];
    [| tauto].
  destruct (Rlt_dec ph 0) as [Hneg | Hpos].
  - rewrite get_bicarbonate_factor_negative by exact Hneg. tauto.
  - destruct (get_bicarbonate_factor_from_zero ph) as (b & -> & _); [Lra.lra |].
    split; [discriminate |]. intros [H | H]; [discriminate | contradiction].
Qed.

(** Every name that [TEXTURE_TO_USDA_MAPPING] produces has a clay
    percentage in the CEC table, between 5 and 60. *)
Lemma usda_names_have_clay (k u : string) :
  dict_get CECCalculator.TEXTURE_TO_USDA_MAPPING k = Some u ->
  exists clay, dict_get LeachingLoss.CEC_TEXTURE_TO_CLAY u = Some clay /\
               5 <= clay <= 60.
Proof.
  unfold CECCalculator.TEXTURE_TO_USDA_MAPPING. cbn [dict_get].
  repeat match goal with
         | |- context [String.eqb k ?k'] =>
             destruct (String.eqb k k');
             [intros H; injection H as <-;
              eexists; split; [reflexivity | Lra.lra] |]
         end.
  discriminate.
Qed.

(** X23: the two texture vocabularies and the clay tables fit.  For a pH
    that is not negative the leaching loss is available for each of the five
    classes of [SOIL_TEXTURES] under the VDLUFA method and for every name that
    [TEXTURE_TO_USDA_MAPPING] produces under the CEC method; the drainage
    coefficient of the texture then lies between 0.3 and 0.575 and the
    bicarbonate factor between 5 and 500. *)
Theorem leaching_loss_available_for_resolved_textures (precipitation_mm ph : R) :
  0 <= ph ->
  (forall t, In t VDLUFACalculator.SOIL_TEXTURES ->
     exists d,
       LeachingLoss.calculate_caco3_loss round precipitation_mm t ph "VDLUFA"
       = Some d /\
       0.3 <= LeachingLoss.calculate_drainage_coefficient (LeachingLoss.clay_percent d)
       <= 0.575 /\
       5 <= LeachingLoss.bicarbonate_factor d <= 500) /\
  (forall k u, dict_get CECCalculator.TEXTURE_TO_USDA_MAPPING k = Some u ->
     exists d,
       LeachingLoss.calculate_caco3_loss round precipitation_mm u ph "CEC"
       = Some d /\
       0.3 <= LeachingLoss.calculate_drainage_coefficient (LeachingLoss.clay_percent d)
       <= 0.575 /\
       5 <= LeachingLoss.bicarbonate_factor d <= 500).
Proof.
  intros Hph.
  destruct (get_bicarbonate_factor_from_zero ph Hph) as (b & Hb & Hbounds).
  split.
  - intros t Ht. cbn in Ht.
    repeat destruct Ht as [<- | Ht]; try contradiction;
      unfold LeachingLoss.calculate_caco3_loss; cbn [LeachingLoss.clay_table];
      cbn; rewrite Hb; eexists; (split; [reflexivity |]);
      cbn; unfold LeachingLoss.calculate_drainage_coefficient;
      (split; [Lra.lra | exact Hbounds]).
  - intros k u Hk. destruct (usda_names_have_clay k u Hk) as (clay & Hclay & Hc).
    unfold LeachingLoss.calculate_caco3_loss.
    change (LeachingLoss.clay_table "CEC") with LeachingLoss.CEC_TEXTURE_TO_CLAY.
    rewrite Hclay, Hb. eexists. split; [reflexivity |]. cbn.
    unfold LeachingLoss.calculate_drainage_coefficient.
    split; [Lra.lra | exact Hbounds].
Qed.

End Leaching.

Lemma leaching_loss_available_for_resolved_textures_witness :
  exists d,
    LeachingLoss.calculate_caco3_loss (fun x _ => x) 800 "Sandy Loam" 6 "CEC"
    = Some d /\
    (0.3 <= LeachingLoss.calculate_drainage_coefficient (LeachingLoss.clay_percent d)
     <= 0.575)%R /\
    (5 <= LeachingLoss.bicarbonate_factor d <= 500)%R.
Proof.
  assert (Hph : (0 <= 6)%R) by Lra.lra.
  apply (proj2 (leaching_loss_available_for_resolved_textures
                  (fun x _ => x) 800 6 Hph) "sandy loam" "Sandy Loam").
  reflexivity.
Defined.

(** ** The resolver and the routes, further *)

(** X24: every texture that [map_soil_texture] returns is one of the five
    classes of [SOIL_TEXTURES] or the name [Stark Lehm Sand]; a class that it
    returns is resolved to itself when resolved again, whereas
    [Stark Lehm Sand] is resolved to [Sand]. *)
Theorem map_soil_texture_outputs (api_texture : option string) (r : string) :
  VDLUFACalculator.map_soil_texture api_texture = Some r ->
  (In r VDLUFACalculator.SOIL_TEXTURES /\
   VDLUFACalculator.map_soil_texture (Some r) = Some r) \/
  (r = "Stark Lehm Sand" /\
   VDLUFACalculator.map_soil_texture (Some r) = Some "Sand").
Proof.
  intros H. apply map_soil_texture_range in H. destruct H as [H | ->].
  - left. split; [exact H |]. cbn in H.
    repeat destruct H as [<- | H]; try reflexivity. contradiction.
  - right. split; reflexivity.
Qed.

Lemma map_soil_texture_outputs_witness :
  (In "Sandiger Schl Lehm" VDLUFACalculator.SOIL_TEXTURES /\
   VDLUFACalculator.map_soil_texture (Some "Sandiger Schl Lehm")
   = Some "Sandiger Schl Lehm") \/
  ("Sandiger Schl Lehm" = "Stark Lehm Sand" /\
   VDLUFACalculator.map_soil_texture (Some "Sandiger Schl Lehm") = Some "Sand").
Proof.
  apply (map_soil_texture_outputs (Some "sandy loam") "Sandiger Schl Lehm").
  reflexivity.
Defined.

(** X25: through the VDLUFA route, whose parameters carry no neutralizing
    value, a [pH Maintenance] request for a sample below its optimal pH with a
    CaCO3 loss and no maximum rate is answered with the CaO equivalent of the
    loss, [loss / 1.785], whatever the lime type; the label is [Maintenance],
    the reported pH is the current pH and nothing is capped. *)
Theorem vdlufa_route_maintenance_dose
    (current_ph loss : Q) (texture : option string)
    (crop lime default_texture : string) :
  let s := {| LimingPrescription.ph_value := Some current_ph;
              LimingPrescription.soil_texture := texture;
              LimingPrescription.caco3_loss_kg_ha := Some loss |} in
  let p := LimingPrescription.vdlufa_request crop lime "pH Maintenance"
             default_texture None in
  current_ph < LimingPrescription.vdlufa_optimal_ph s p ->
  exists r,
    snd (LimingPrescription._calculate_vdlufa_prescription s p) = Ok r /\
    LimingPrescription.lime_of r == loss / 1.785 /\
    LimingPrescription.mode_of r = "Maintenance" /\
    LimingPrescription.target_of r = Some current_ph /\
    LimingPrescription.capped_of r = false.
Proof.
  intros s p Hlt.
  unfold LimingPrescription._calculate_vdlufa_prescription.
  cbn [LimingPrescription.ph_value s].
  assert (Hnom : LimingPrescription.vdlufa_nominal s p current_ph
                 = (logger_info "VDLUFA pH Maintenance: CaCO3 loss {caco3_loss_kg_ha} kg/ha -> CaO {cao_loss_kg_ha:.1f} kg/ha -> Product {lime_requirement:.1f} kg/ha (NV={nv}%)" ;;;
                    ret (loss / 1.785 * (100 / 100.0)))).
  { unfold LimingPrescription.vdlufa_nominal.
    change (LimingPrescription.vdlufa_mode p) with "pH Maintenance".
    cbn [LimingPrescription.uses_loss String.eqb Ascii.eqb Bool.eqb orb
         LimingPrescription.caco3_loss_kg_ha s].
    rewrite vdlufa_maintenance_below_optimal by exact Hlt.
    change (LimingPrescription.get_or (LimingPrescription.nv p) 100.0) with 100.0.
    rewrite fdiv_value by lra. now rewrite bind_ret_l. }
  rewrite Hnom. cbn.
  unfold LimingPrescription.applied_mode_label.
  change (LimingPrescription.vdlufa_mode p) with "pH Maintenance".
  cbn [String.eqb Ascii.eqb Bool.eqb].
  qcase; [exfalso; lra |].
  eexists. split; [reflexivity |]. cbn. repeat split. field.
Qed.

Lemma vdlufa_route_maintenance_dose_witness :
  exists r,
    snd (LimingPrescription._calculate_vdlufa_prescription
           {| LimingPrescription.ph_value := Some 5.2;
              LimingPrescription.soil_texture := Some "Sand";
              LimingPrescription.caco3_loss_kg_ha := Some 130 |}
           (LimingPrescription.vdlufa_request "Standard crops" "CaCO3"
              "pH Maintenance" "Sandiger Schl Lehm" None)) = Ok r /\
    LimingPrescription.lime_of r == 130 / 1.785 /\
    LimingPrescription.mode_of r = "Maintenance" /\
    LimingPrescription.target_of r = Some 5.2 /\
    LimingPrescription.capped_of r = false.
Proof.
  apply (vdlufa_route_maintenance_dose 5.2 130 (Some "Sand") "Standard crops"
           "CaCO3" "Sandiger Schl Lehm").
  reflexivity.
Defined.

(** X26: on the CEC path a sample with a non-empty texture string takes
    its exchange capacity from the texture: the [cec_soil] of the parameters
    has no influence on its prescription. *)
Theorem cec_soil_parameter_only_without_texture
    (SOIL_CEC_VALUES : list (string * Q))
    (s : LimingPrescription.sample) (p : LimingPrescription.params)
    (cec : option Q) :
  truthy (LimingPrescription.soil_texture s) = true ->
  LimingPrescription._calculate_cec_prescription SOIL_CEC_VALUES s
    (Orchestration.with_cec_soil p cec) =
  LimingPrescription._calculate_cec_prescription SOIL_CEC_VALUES s p.
Proof.
  intros Htexture.
  unfold LimingPrescription._calculate_cec_prescription,
    LimingPrescription.cec_nominal, LimingPrescription.cec_inverse,
    LimingPrescription.cec_soil_value.
  rewrite Htexture. reflexivity.
Qed.

Lemma cec_soil_parameter_only_without_texture_witness :
  LimingPrescription._calculate_cec_prescription [("Sandy Loam", 10)]
    {| LimingPrescription.ph_value := Some 5.8;
       LimingPrescription.soil_texture := Some "sandy loam";
       LimingPrescription.caco3_loss_kg_ha := None |}
    (Orchestration.with_cec_soil
       (LimingPrescription.cec_request 6.5 1500 53 1.0 15.0 "pH Improvement"
          None None None) (Some 40)) =
  LimingPrescription._calculate_cec_prescription [("Sandy Loam", 10)]
    {| LimingPrescription.ph_value := Some 5.8;
       LimingPrescription.soil_texture := Some "sandy loam";
       LimingPrescription.caco3_loss_kg_ha := None |}
    (LimingPrescription.cec_request 6.5 1500 53 1.0 15.0 "pH Improvement"
       None None None).
Proof.
  apply (cec_soil_parameter_only_without_texture [("Sandy Loam", 10)]
           {| LimingPrescription.ph_value := Some 5.8;
              LimingPrescription.soil_texture := Some "sandy loam";
              LimingPrescription.caco3_loss_kg_ha := None |}
           (LimingPrescription.cec_request 6.5 1500 53 1.0 15.0 "pH Improvement"
              None None None) (Some 40)).
  reflexivity.
Defined.

(** X27: in [Automatic] mode, for a current pH within 0.1 below the target
    (the target included), without a CaCO3 loss and without saturation
    adjustment, the CEC calculator returns the forward dose for a rise of 0.1
    pH: [K * 0.1 * dose * 1000] clamped below at 0, the same wherever in the
    band the current pH lies. *)
Theorem cec_automatic_band_fallback_dose
    (current_ph target_ph cec_soil fine_dry_soil nv dose : Q)
    (s_cec_percentage modified_s_cec : option Q) :
  target_ph - 0.1 <= current_ph -> current_ph <= target_ph -> ~ nv == 0 ->
  s_cec_percentage = None \/ modified_s_cec = None ->
  returns (CECCalculator.calculate_lime_requirement current_ph target_ph cec_soil
             fine_dry_soil nv dose s_cec_percentage modified_s_cec "Automatic" None)
          (Qmax 0 (spec_K cec_soil fine_dry_soil nv * 0.1 * dose * 1000)).
Proof.
  intros Hband Hle Hnv Hsat.
  unfold CECCalculator.calculate_lime_requirement.
  cbn [String.eqb Ascii.eqb Bool.eqb].
  qcase; [| exfalso; lra]. qcase; [| exfalso; lra].
  assert (Hfwd : CECCalculator.forward current_ph (current_ph + 0.1) cec_soil
                   fine_dry_soil nv dose s_cec_percentage modified_s_cec
                 = CECCalculator._calculate_standard current_ph (current_ph + 0.1)
                     cec_soil fine_dry_soil nv dose).
  { unfold CECCalculator.forward.
    destruct modified_s_cec, s_cec_percentage; try reflexivity.
    destruct Hsat; discriminate. }
  rewrite Hfwd, _calculate_standard_below_target by (try assumption; lra).
  unfold returns, spec_K. cbn [snd ret].
  assert (Hz : 0.0 == 0) by reflexivity. rewrite Hz.
  apply Q.max_compat; [reflexivity |]. field. lra.
Qed.

Lemma cec_automatic_band_fallback_dose_witness :
  returns (CECCalculator.calculate_lime_requirement 6.45 6.5 10.0 1500 53 1.0
             None None "Automatic" None)
          (Qmax 0 (spec_K 10.0 1500 53 * 0.1 * 1.0 * 1000)).
Proof.
  apply (cec_automatic_band_fallback_dose 6.45 6.5 10.0 1500 53 1.0 None None).
  - vm_compute. discriminate.
  - vm_compute. discriminate.
  - lra.
  - left. reflexivity.
Defined.

Lemma actual_texture_used_present_witness :
  Orchestration.actual_texture_used "CEC"
    {| LimingPrescription.ph_value := Some 5.8;
       LimingPrescription.soil_texture := Some "";
       LimingPrescription.caco3_loss_kg_ha := None |}
    (LimingPrescription.cec_request 6.5 1500 53 1.0 15.0 "pH Improvement"
       None None None) = None.
Proof.
  apply (proj2 (actual_texture_used_present
                  {| LimingPrescription.ph_value := Some 5.8;
                     LimingPrescription.soil_texture := Some "";
                     LimingPrescription.caco3_loss_kg_ha := None |}
                  (LimingPrescription.cec_request 6.5 1500 53 1.0 15.0
                     "pH Improvement" None None None)) "CEC").
  - discriminate.
  - reflexivity.
Defined.

Lemma total_area_of_batches_witness :
  Api.total_area
    [ {| Api.zone_area := None; Api.lime_requirement_kg_ha := 3000 |};
      {| Api.zone_area := Some 2; Api.lime_requirement_kg_ha := 1000 |} ] ==
  Api.total_area
    [ {| Api.zone_area := Some 2; Api.lime_requirement_kg_ha := 1000 |} ].
Proof.
  destruct (total_area_of_batches
              [ {| Api.zone_area := Some 2; Api.lime_requirement_kg_ha := 1000 |} ]
              []) as (_ & Hnone & _).
  apply Hnone. reflexivity.
Defined.

Lemma calculate_caco3_loss_None_iff_witness :
  LeachingLoss.calculate_caco3_loss (fun x _ => x) 800 "Stark Lehm Sand" 6 "VDLUFA"
  = None.
Proof.
  apply (proj2 (calculate_caco3_loss_None_iff (fun x _ => x) 800
                  "Stark Lehm Sand" 6 "VDLUFA")).
  left. reflexivity.
Defined.
